(** * IELTS AI Coach: the evaluation graph (backend/app)

    A shallow embedding of the LangGraph workflow of the backend:
    - [graph_state.py]   the state dictionary threaded through the graph,
    - [graph_builder.py] the router, the error node and the topology,
    - [graph_nodes.py]   text sanitisation, output validation, the
                         evaluator nodes and the synthesizer,
    - [llm_config.py]    the [MAX_RETRIES] setting,
    - [main.py]          the input dictionary the API hands to the graph.

    Python strings are modelled by [string]; a character stands for a code
    point below 256, and [str.lower] / [str.split] are given on that range.
    Python exceptions, the calls to the language model and [time.sleep] are
    modelled by a small state-and-error monad over a trace of events.
    The language model is a collaborator that may answer each call in any
    way; a call is recorded with the values substituted into the prompt
    template, not with the prompt text.  Logging and wall-clock
    measurements have no influence on the returned values and are left
    out. *)

From Stdlib Require Import ZArith Lia List String Ascii Bool DecimalString.
From stdpp Require Import base gmap strings list.

Local Open Scope string_scope.
Local Open Scope list_scope.
Local Open Scope Z_scope.

(** ** Python strings *)

Module PyStr.

(** [str.isspace] on code points below 256: TAB..CR, FS..US, SPACE,
    NEL (0x85) and NBSP (0xA0).  These are the separators of
    [str.split()] without arguments. *)
Definition is_space (c : ascii) : bool :=
  let n := N_of_ascii c in
  ((9 <=? n)%N && (n <=? 13)%N) || ((28 <=? n)%N && (n <=? 32)%N)
  || (n =? 133)%N || (n =? 160)%N.

(** [str.lower] on one code point below 256: A..Z and the Latin-1
    capitals 0xC0..0xDE (the multiplication sign 0xD7 apart) move up
    by 32. *)
Definition lower_char (c : ascii) : ascii :=
  let n := N_of_ascii c in
  if ((65 <=? n)%N && (n <=? 90)%N)
     || ((192 <=? n)%N && (n <=? 222)%N && negb (n =? 215)%N)
  then ascii_of_N (n + 32) else c.

Fixpoint lower (s : string) : string :=
  match s with
  | EmptyString => EmptyString
  | String c t => String (lower_char c) (lower t)
  end.

(** [needle in hay] *)
Fixpoint contains (needle hay : string) : bool :=
  if String.prefix needle hay then true
  else match hay with
       | EmptyString => false
       | String _ t => contains needle t
       end.

(** Truth value of a string: [bool(s)]. *)
Definition truthy (s : string) : bool :=
  match s with EmptyString => false | _ => true end.

(** [text.split()]: the maximal runs of non-space characters, in
    order.  [cur] is the word read so far. *)
Fixpoint split_aux (cur : string) (s : string) : list string :=
  match s with
  | EmptyString =>
      match cur with EmptyString => [] | _ => [cur] end
  | String c t =>
      if is_space c then
        match cur with
        | EmptyString => split_aux EmptyString t
        | _ => cur :: split_aux EmptyString t
        end
      else split_aux (cur +:+ String c EmptyString) t
  end.

Definition split (s : string) : list string := split_aux EmptyString s.

(** [sep.join(words)] *)
Fixpoint join (sep : string) (words : list string) : string :=
  match words with
  | [] => EmptyString
  | [w] => w
  | w :: ws => w +:+ sep +:+ join sep ws
  end.

(** [len(s)] as a Python int. *)
Definition len (s : string) : Z := Z.of_nat (String.length s).

(** [s[:n]] for [n >= 0]. *)
Fixpoint take (n : nat) (s : string) : string :=
  match n, s with
  | O, _ => EmptyString
  | _, EmptyString => EmptyString
  | S n', String c t => String c (take n' t)
  end.

Definition slice_to (n : Z) (s : string) : string := take (Z.to_nat n) s.

End PyStr.

Arguments PyStr.is_space : simpl never.
Arguments PyStr.lower_char : simpl never.

(** ** Values returned by the JSON output parser *)

#[warning="-register-all"] Inductive py_value : Type :=
| PyNone
| PyBool (b : bool)
| PyInt (n : Z)
| PyFloat (mantissa exponent : Z)
| PyStr (s : string)
| PyList (l : list py_value)
| PyDict (d : gmap string py_value).

(** ** graph_state.py *)

(** One entry of [previous_attempts], as [main.py] builds it. *)
Record PriorAttempt : Type := {
  pa_word_count : Z;
  pa_timestamp : string;
  pa_essay_text : string;
  pa_evaluation_summary : string
}.

(** [GraphState] is a [TypedDict]: a dictionary in which each key may be
    absent.  [None] stands for an absent key.  The same type serves for
    the partial dictionaries the nodes return. *)
Record GraphState : Type := {
  task_type : option string;
  prompt_text : option string;
  essay_text : option string;
  word_count : option Z;
  previous_attempts : option (list PriorAttempt);
  evaluations : option (gmap string py_value);
  final_report : option string;
  error : option string
}.

Definition empty_update : GraphState :=
  {| task_type := None; prompt_text := None; essay_text := None;
     word_count := None; previous_attempts := None; evaluations := None;
     final_report := None; error := None |}.

(** [state.get(key, dflt)] *)
Definition get_or {A} (field : option A) (dflt : A) : A :=
  match field with Some v => v | None => dflt end.

(** Truth value of [state.get(key)] for a string-valued key. *)
Definition get_truthy (field : option string) : bool :=
  match field with Some v => PyStr.truthy v | None => false end.

(** A string field is set when the key is there with a non-empty value. *)
Definition is_set (field : option string) : Prop := get_truthy field = true.

(** ** llm_config.py *)

Module UniversalLLMConfig.
End UniversalLLMConfig.

(** ** graph_builder.py: router and error node *)

Inductive node_name : Type :=
| evaluate_task_achievement_t1
| evaluate_task_response_t2
| evaluate_coherence_cohesion
| evaluate_lexical_resource
| evaluate_grammatical_range
| synthesizer
| handle_error.

Definition should_evaluate_task_1_or_2 (state : GraphState) : node_name :=
  let task_type := PyStr.lower (get_or (task_type state) "") in
  if PyStr.contains "task 1" task_type then evaluate_task_achievement_t1
  else if PyStr.contains "task 2" task_type then evaluate_task_response_t2
  else handle_error.

Definition NL : string := String "010" EmptyString.

Definition unknown_error_message : string :=
  "An unknown error occurred during evaluation.".

(** The f-string of [handle_error_node]. *)
Definition error_report (error_message : string) : string :=
  "**Evaluation Error**" +:+ NL +:+ NL +:+ error_message +:+ NL +:+ NL
  +:+ "Please check your inputs and try again.".

Definition handle_error_node (state : GraphState) : GraphState :=
  let error_message := get_or (error state) unknown_error_message in
  {| task_type := None; prompt_text := None; essay_text := None;
     word_count := None; previous_attempts := None; evaluations := None;
     final_report := Some (error_report error_message);
     error := Some error_message |}.

(** ** graph_nodes.py: utilities *)

Definition truncation_marker : string := "... [truncated]".

Definition sanitize_text (text : string) : string :=
  if negb (PyStr.truthy text) then ""
  else
    let text := PyStr.join " " (PyStr.split text) in
    if PyStr.len text >? 15000
    then PyStr.slice_to 15000 text +:+ truncation_marker
    else text.

(** [key in result] for a parsed dictionary. *)
Definition has_key (d : gmap string py_value) (key : string) : bool :=
  match d !! key with Some _ => true | None => false end.

Definition validate_json_output (result : py_value) (expected_keys : list string) : bool :=
  match result with
  | PyDict d => forallb (has_key d) expected_keys
  | _ => false
  end.

(** ** Exceptions, the language model and the clock *)

(** The exceptions the nodes distinguish.  [OutputParserException] comes
    from the JSON parser of the chain, [OtherException] is any other
    [Exception] the chain raises (transport error, timeout, ...). *)
Inductive exn : Type :=
| ValueError (msg : string)
| OutputParserException (msg : string)
| GraphRecursionError (msg : string)
| OtherException (msg : string).

(** [str(e)] *)
Definition str_exn (e : exn) : string :=
  match e with
  | ValueError msg | OutputParserException msg
  | GraphRecursionError msg | OtherException msg => msg
  end.

(** What an evaluator hands to [chain.invoke]. The rubric text depends on
    the rubric file and the word count only. *)
Record invoke_params : Type := {
  ip_criterion : string;
  ip_essay : string;
  ip_word_count : Z;
  ip_previous_attempts : list PriorAttempt;
  ip_visual_data : option string;
  ip_comparison_instruction : option string
}.

(** What the synthesizer hands to [chain.invoke]. *)
Record synth_params : Type := {
  sp_task_type : string;
  sp_evaluations : gmap string py_value;
  sp_previous_attempts : list PriorAttempt
}.

Inductive event : Type :=
| LLMJsonCall (p : invoke_params)
| LLMTextCall (p : synth_params)
| Sleep (seconds : Z).

Definition is_llm_call (ev : event) : bool :=
  match ev with Sleep _ => false | _ => true end.

(** Number of chain invocations recorded in a trace. *)
Definition call_count (tr : list event) : nat :=
  length (filter (fun ev => is_llm_call ev = true) tr).

(** Durations of the suspensions recorded in a trace, in order. *)
Definition sleeps (tr : list event) : list Z :=
  omap (fun ev => match ev with Sleep s => Some s | _ => None end) tr.

(** The generation collaborator: what the [n]-th chain invocation of a
    run answers.  [json_chain] is [prompt | llm | json_parser],
    [text_chain] is [prompt | llm] followed by [.content]. *)
Record Collaborator : Type := {
  json_chain : nat -> invoke_params -> exn + py_value;
  text_chain : nat -> synth_params -> exn + string
}.

(** Computations that may raise, over the trace of events so far. *)
Definition Eff (A : Type) : Type := list event -> (exn + A) * list event.

#[global] Instance eff_ret : MRet Eff := fun A a tr => (inr a, tr).

#[global] Instance eff_bind : MBind Eff := fun A B k m tr =>
  match m tr with
  | (inl e, tr') => (inl e, tr')
  | (inr a, tr') => k a tr'
  end.

Definition raise {A} (e : exn) : Eff A := fun tr => (inl e, tr).

(** [try: m  except Exception as e: h e] *)
Definition try_except {A} (m : Eff A) (h : exn -> Eff A) : Eff A := fun tr =>
  match m tr with
  | (inl e, tr') => h e tr'
  | (inr a, tr') => (inr a, tr')
  end.

Definition time_sleep (seconds : Z) : Eff unit := fun tr =>
  (inr tt, tr ++ [Sleep seconds]).

Definition invoke_json (llm : Collaborator) (p : invoke_params) : Eff py_value :=
  fun tr => (json_chain llm (call_count tr) p, tr ++ [LLMJsonCall p]).

Definition invoke_text (llm : Collaborator) (p : synth_params) : Eff string :=
  fun tr => (text_chain llm (call_count tr) p, tr ++ [LLMTextCall p]).

(** [range(n)] *)
Definition range (n : Z) : list Z := map Z.of_nat (seq 0 (Z.to_nat n)).

(** ** graph_nodes.py: the nodes *)

Definition generic_error_report : string :=
  "**Evaluation Error**" +:+ NL +:+ NL
  +:+ "An error occurred during the evaluation process. Please try again.".

Definition fallback_report : string :=
"
**Evaluation Report**

An error occurred while generating your detailed feedback report. However, your essay has been processed.

**What you can do:**
- Check that your essay meets the minimum word requirements
- Ensure your essay directly addresses the prompt
- Review basic IELTS writing criteria: Task Achievement/Response, Coherence & Cohesion, Lexical Resource, and Grammatical Range & Accuracy

Please try submitting your essay again.
".

Definition comparison_instruction_text : string :=
  "IMPORTANT: If there are previous attempts shown above, comment on improvements or areas that still need work compared to earlier submissions.".

(** The dictionary [{"error": msg}]. *)
Definition error_update (msg : string) : GraphState :=
  {| task_type := None; prompt_text := None; essay_text := None;
     word_count := None; previous_attempts := None; evaluations := None;
     final_report := None; error := Some msg |}.

(** The dictionary [{"evaluations": evs}]. *)
Definition evaluations_update (evs : gmap string py_value) : GraphState :=
  {| task_type := None; prompt_text := None; essay_text := None;
     word_count := None; previous_attempts := None; evaluations := Some evs;
     final_report := None; error := None |}.

(** The dictionary [{"final_report": report}], with an ["error"] key when
    [err] is given. *)
Definition report_update (report : string) (err : option string) : GraphState :=
  {| task_type := None; prompt_text := None; essay_text := None;
     word_count := None; previous_attempts := None; evaluations := None;
     final_report := Some report; error := err |}.

Section Nodes.

(** The process-wide [llm] and [UniversalLLMConfig.MAX_RETRIES]. *)
Variable llm : Collaborator.
Variable MAX_RETRIES : Z.

Section Evaluator.

(** Arguments of [create_evaluator_node]; [expected_output_keys] is
    [list(rubric_data['output_format'].keys())] of the rubric file. *)
Variable criterion_name : string.
Variable expected_output_keys : list string.

Definition evaluator_params (state : GraphState) (essay : string) : invoke_params :=
  let word_count :=
    get_or (word_count state) (Z.of_nat (length (PyStr.split essay))) in
  let is_task_1 :=
    PyStr.contains "task 1" (PyStr.lower (get_or (task_type state) "")) in
  let prompt_text := get_or (prompt_text state) "" in
  let previous_attempts := get_or (previous_attempts state) [] in
  let visual := is_task_1 && PyStr.truthy prompt_text in
  {| ip_criterion := criterion_name;
     ip_essay := essay;
     ip_word_count := word_count;
     ip_previous_attempts := previous_attempts;
     ip_visual_data := if visual then Some prompt_text else None;
     ip_comparison_instruction :=
       if visual then None
       else Some (match previous_attempts with
                  | [] => ""
                  | _ => comparison_instruction_text
                  end) |}.

(** One pass of the body of the retry loop, up to the point before
    [time.sleep].  [Some update] is [return update]; [None] falls
    through to the sleep. *)
Definition evaluator_attempt (state : GraphState) (params : invoke_params)
    (attempt : Z) : Eff (option GraphState) :=
  try_except
    (result ← invoke_json llm params;
     if validate_json_output result expected_output_keys then
       let current_evaluations := get_or (evaluations state) ∅ in
       mret (Some (evaluations_update
                     (<[criterion_name := result]> current_evaluations)))
     else if attempt =? MAX_RETRIES - 1 then
       raise (ValueError "LLM returned invalid output format")
     else mret None)
    (fun e =>
       match e with
       | OutputParserException _ =>
           if attempt =? MAX_RETRIES - 1 then raise e else mret None
       | _ =>
           if attempt =? MAX_RETRIES - 1 then raise e else mret None
       end).

(** [for attempt in attempts: ...]; running off the end of the loop
    leaves the function without a [return], that is with [None]. *)
Fixpoint evaluator_loop (state : GraphState) (params : invoke_params)
    (attempts : list Z) : Eff (option GraphState) :=
  match attempts with
  | [] => mret None
  | attempt :: rest =>
      r ← evaluator_attempt state params attempt;
      match r with
      | Some update => mret (Some update)
      | None => time_sleep (2 ^ attempt);; evaluator_loop state params rest
      end
  end.

Definition evaluator_node (state : GraphState) : Eff (option GraphState) :=
  try_except
    (if negb (get_truthy (essay_text state)) then
       raise (ValueError "No essay text provided")
     else
       let essay_text := sanitize_text (get_or (essay_text state) "") in
       evaluator_loop state (evaluator_params state essay_text)
                      (range MAX_RETRIES))
    (fun e =>
       mret (Some (error_update
                     ("Failed during " +:+ criterion_name
                      +:+ " evaluation: " +:+ str_exn e)))).

End Evaluator.

(** [not evaluations] *)
Definition dict_is_empty (d : gmap string py_value) : bool :=
  bool_decide (d = ∅).

Definition synthesizer_params (state : GraphState)
    (evaluations : gmap string py_value) : synth_params :=
  {| sp_task_type := get_or (task_type state) "IELTS Writing Task";
     sp_evaluations := evaluations;
     sp_previous_attempts := get_or (previous_attempts state) [] |}.

(** The retry loop of the synthesizer; the sleep sits in the handler. *)
Fixpoint synthesizer_loop (params : synth_params) (attempts : list Z)
    : Eff (option GraphState) :=
  match attempts with
  | [] => mret None
  | attempt :: rest =>
      r ← try_except
            (result ← invoke_text llm params;
             mret (Some (report_update result None)))
            (fun e =>
               if attempt =? MAX_RETRIES - 1 then raise e
               else time_sleep (2 ^ attempt);; mret None);
      match r with
      | Some update => mret (Some update)
      | None => synthesizer_loop params rest
      end
  end.

Definition synthesizer_node (state : GraphState) : Eff (option GraphState) :=
  try_except
    (if get_truthy (error state) then
       mret (Some (report_update generic_error_report (error state)))
     else
       let evaluations := get_or (evaluations state) ∅ in
       if dict_is_empty evaluations then
         raise (ValueError "No evaluation results found")
       else
         synthesizer_loop (synthesizer_params state evaluations)
                          (range MAX_RETRIES))
    (fun e =>
       mret (Some (report_update fallback_report
                     (Some ("Synthesis error: " +:+ str_exn e))))).

End Nodes.

(** ** graph_builder.py: the compiled graph *)

(** How the executor folds the dictionary a node returns into the state:
    every key of the update replaces the value held for it. *)
Definition merge (state update : GraphState) : GraphState :=
  {| task_type := match task_type update with Some v => Some v | None => task_type state end;
     prompt_text := match prompt_text update with Some v => Some v | None => prompt_text state end;
     essay_text := match essay_text update with Some v => Some v | None => essay_text state end;
     word_count := match word_count update with Some v => Some v | None => word_count state end;
     previous_attempts :=
       match previous_attempts update with Some v => Some v | None => previous_attempts state end;
     evaluations := match evaluations update with Some v => Some v | None => evaluations state end;
     final_report := match final_report update with Some v => Some v | None => final_report state end;
     error := match error update with Some v => Some v | None => error state end |}.

(** [workflow.add_edge]; [None] is [END]. *)
Definition next_node (n : node_name) : option node_name :=
  match n with
  | evaluate_task_achievement_t1 => Some evaluate_coherence_cohesion
  | evaluate_task_response_t2 => Some evaluate_coherence_cohesion
  | evaluate_coherence_cohesion => Some evaluate_lexical_resource
  | evaluate_lexical_resource => Some evaluate_grammatical_range
  | evaluate_grammatical_range => Some synthesizer
  | synthesizer => None
  | handle_error => None
  end.

(** The executor gives up after this many steps. *)
Definition recursion_limit : nat := 25.

Section Graph.

Variable llm : Collaborator.
Variable MAX_RETRIES : Z.

(** [output_format] keys of the rubric file of the given name. *)
Variable output_format_keys : string -> list string.

Definition create_evaluator_node (criterion_name rubric_filename : string) :=
  evaluator_node llm MAX_RETRIES criterion_name
                 (output_format_keys rubric_filename).

(** [workflow.add_node] *)
Definition node_function (n : node_name) : GraphState -> Eff (option GraphState) :=
  match n with
  | evaluate_task_achievement_t1 =>
      create_evaluator_node "task_achievement" "1_task_achievement_t1.json"
  | evaluate_task_response_t2 =>
      create_evaluator_node "task_response" "2_task_response_t2.json"
  | evaluate_coherence_cohesion =>
      create_evaluator_node "coherence_cohesion" "3_coherence_cohesion.json"
  | evaluate_lexical_resource =>
      create_evaluator_node "lexical_resource" "4_lexical_resource.json"
  | evaluate_grammatical_range =>
      create_evaluator_node "grammatical_range" "5_grammatical_range_accuracy.json"
  | synthesizer => synthesizer_node llm MAX_RETRIES
  | handle_error => fun state => mret (Some (handle_error_node state))
  end.

(** Run node [n] on the state, fold its update in, follow the edge. *)
Fixpoint run_from (steps : nat) (n : node_name) (state : GraphState)
    : Eff GraphState :=
  match steps with
  | O => raise (GraphRecursionError "Recursion limit reached")
  | S steps' =>
      update ← node_function n state;
      let state' := match update with
                    | Some u => merge state u
                    | None => state
                    end in
      match next_node n with
      | None => mret state'
      | Some n' => run_from steps' n' state'
      end
  end.

(** One invocation of the compiled graph on the input dictionary. *)
Definition run (inputs : GraphState) : Eff GraphState :=
  run_from recursion_limit (should_evaluate_task_1_or_2 inputs) inputs.

End Graph.

(** ** main.py: the input dictionary of [evaluate_essay] *)

Definition graph_inputs (task_type prompt_text essay_text : string)
    (previous_attempts : list PriorAttempt) : GraphState :=
  {| task_type := Some task_type;
     prompt_text := Some prompt_text;
     essay_text := Some essay_text;
     word_count := Some (Z.of_nat (length (PyStr.split essay_text)));
     previous_attempts := Some previous_attempts;
     evaluations := Some ∅;
     final_report := Some "";
     error := Some "" |}.

(** ** Collaborators used in examples *)

(** A collaborator whose every call raises. *)
Definition failing_llm : Collaborator :=
  {| json_chain := fun _ _ => inl (OtherException "connection refused");
     text_chain := fun _ _ => inl (OtherException "connection refused") |}.

(** A collaborator that answers every evaluator with the given value and
    every synthesis with the given text. *)
Definition constant_llm (v : py_value) (report : string) : Collaborator :=
  {| json_chain := fun _ _ => inr v;
     text_chain := fun _ _ => inr report |}.

Definition band_only : py_value := PyDict {[ "band_score" := PyInt 6 ]}.

Definition band_keys (_ : string) : list string := ["band_score"].

Definition sample_essay : string := "Some  people think   that" +:+ NL +:+ "cities grow.".

(** ** Vocabulary of the properties *)

(** An answer of the chain that does not end the loop: an exception, or a
    value that fails validation. *)
Definition rejected (keys : list string) (out : exn + py_value) : bool :=
  match out with
  | inl _ => true
  | inr v => negb (validate_json_output v keys)
  end.

(** The exception the last attempt leaves the loop with. *)
Definition failure_exn (out : exn + py_value) : exn :=
  match out with
  | inl e => e
  | inr _ => ValueError "LLM returned invalid output format"
  end.

(** The events of a run of attempts that all fail: one call per attempt
    and, after every attempt but the last, a sleep of [2 ^ attempt]. *)
Fixpoint retry_trace (call : event) (attempts : list Z) : list event :=
  match attempts with
  | [] => []
  | attempt :: rest =>
      match rest with
      | [] => [call]
      | _ => call :: Sleep (2 ^ attempt) :: retry_trace call rest
      end
  end.


(** The state a run may end with at the synthesizer. *)
Definition synthesized (llm : Collaborator) (s : GraphState) : Prop :=
  exists report,
    final_report s = Some report
    /\ ((is_set (error s)
         /\ (report = generic_error_report \/ report = fallback_report))
        \/ (~ is_set (error s)
            /\ exists n p, text_chain llm n p = inr report)).

(** Vocabulary for the shape of a text. *)
Fixpoint all_chars (P : ascii -> bool) (s : string) : bool :=
  match s with
  | EmptyString => true
  | String c t => P c && all_chars P t
  end.

Definition no_leading_ws (s : string) : bool :=
  match s with
  | EmptyString => true
  | String c _ => negb (PyStr.is_space c)
  end.

Fixpoint no_trailing_ws (s : string) : bool :=
  match s with
  | EmptyString => true
  | String c t =>
      match t with
      | EmptyString => negb (PyStr.is_space c)
      | _ => no_trailing_ws t
      end
  end.

(** No two adjacent characters are both whitespace. *)
Fixpoint no_consecutive_ws (s : string) : bool :=
  match s with
  | EmptyString => true
  | String c t =>
      negb (PyStr.is_space c && negb (no_leading_ws t)) && no_consecutive_ws t
  end.

(** Every whitespace character is the space character. *)
Definition plain_spaces (s : string) : bool :=
  all_chars (fun c => negb (PyStr.is_space c) || (c =? " ")%char) s.

Definition non_space (c : ascii) : bool := negb (PyStr.is_space c).

(** A word: not empty, no whitespace in it. *)
Definition is_word (w : string) : bool :=
  PyStr.truthy w && all_chars non_space w.

(** Collapsed form: no leading, trailing or adjacent whitespace, and no
    whitespace other than the space character. *)
Definition collapsed (s : string) : Prop :=
  no_leading_ws s = true /\ no_consecutive_ws s = true
  /\ no_trailing_ws s = true /\ plain_spaces s = true.

Definition tabbed : string := String "a" (String "009" "b").

(** Criterion name and rubric file of the evaluator behind a node, as
    graph_nodes.py creates them and [create_graph] registers them. *)
Definition stage_of (n : node_name) : option (string * string) :=
  match n with
  | evaluate_task_achievement_t1 =>
      Some ("task_achievement", "1_task_achievement_t1.json")
  | evaluate_task_response_t2 =>
      Some ("task_response", "2_task_response_t2.json")
  | evaluate_coherence_cohesion =>
      Some ("coherence_cohesion", "3_coherence_cohesion.json")
  | evaluate_lexical_resource =>
      Some ("lexical_resource", "4_lexical_resource.json")
  | evaluate_grammatical_range =>
      Some ("grammatical_range", "5_grammatical_range_accuracy.json")
  | synthesizer => None
  | handle_error => None
  end.

Definition is_text_call (ev : event) : bool :=
  match ev with LLMTextCall _ => true | _ => false end.

(** Number of synthesis calls recorded in a trace. *)
Definition text_call_count (tr : list event) : nat :=
  length (filter (fun ev => is_text_call ev = true) tr).

(** The nodes the executor visits from [n] on, following the edges. *)
Fixpoint path_from (steps : nat) (n : node_name) : list node_name :=
  match steps with
  | O => []
  | S steps' =>
      n :: match next_node n with
           | None => []
           | Some n' => path_from steps' n'
           end
  end.

(** A collaborator whose first [k] evaluator answers raise and whose later
    ones are the given value. *)
Definition flaky_llm (k : nat) (v : py_value) : Collaborator :=
  {| json_chain := fun n _ =>
       if (n <? k)%nat then inl (OtherException "timeout") else inr v;
     text_chain := fun _ _ => inr "report" |}.


(** ** main.py: request validation and the pieces of [evaluate_essay] *)

(** [s.strip()] *)
Fixpoint lstrip (s : string) : string :=
  match s with
  | EmptyString => EmptyString
  | String c t => if PyStr.is_space c then lstrip t else s
  end.

Fixpoint rstrip (s : string) : string :=
  match s with
  | EmptyString => EmptyString
  | String c t =>
      match rstrip t with
      | EmptyString => if PyStr.is_space c then EmptyString else String c EmptyString
      | t' => String c t'
      end
  end.

Definition strip (s : string) : string := rstrip (lstrip s).

Definition valid_types : list string :=
  ["Academic Task 1"; "Academic Task 2";
   "General Training Task 1"; "General Training Task 2"].

(** [v in xs] for a list of strings. *)
Definition in_list (v : string) (xs : list string) : bool :=
  existsb (String.eqb v) xs.

Definition validate_task_type (v : string) : exn + string :=
  if negb (in_list v valid_types) then
    inl (ValueError ("Invalid task_type. Must be one of: "
                     +:+ PyStr.join ", " valid_types))
  else inr v.

Definition validate_essay_text (v : string) : exn + string :=
  let v := PyStr.join " " (PyStr.split v) in
  if Z.of_nat (length (PyStr.split v)) <? 50 then
    inl (ValueError "Essay must contain at least 50 words")
  else inr v.

(** Truth value of an optional string: [None] and the empty string are
    false. *)
Definition opt_truthy (v : option string) : bool :=
  match v with Some s => PyStr.truthy s | None => false end.

(** [validate_image_data(cls, v, values)]; [values] holds the fields
    validated before, each possibly missing. *)
Definition validate_image_data (v : option string)
    (values_task_type values_prompt_text : option string)
    : exn + option string :=
  let task_type := get_or values_task_type "" in
  let prompt_text := get_or values_prompt_text "" in
  if PyStr.contains "Task 1" task_type
     && (negb (opt_truthy v) && negb (PyStr.truthy (strip prompt_text)))
  then inl (ValueError
              "For Task 1, either image_data or prompt_text must be provided")
  else inr v.

(** image_processor.py: [extract_image_description]; [vision] is the
    answer of the vision model for the image, its [content] or the
    exception it raises. *)
Definition extract_image_description (vision : string -> exn + string)
    (image_base64 : string) : exn + string :=
  match
    match vision image_base64 with
    | inl e => inl e
    | inr content =>
        let description := strip content in
        if negb (PyStr.truthy description) then
          inl (ValueError "No description generated from image")
        else inr description
    end
  with
  | inl e => inl (OtherException ("Failed to analyze image: " +:+ str_exn e))
  | inr description => inr description
  end.

(** [image_description] of [evaluate_essay]. *)
Definition image_description_of (vision : string -> exn + string)
    (image_data : option string) (task_type : string) : string :=
  if opt_truthy image_data && PyStr.contains "Task 1" task_type then
    match extract_image_description vision (get_or image_data "") with
    | inr description => description
    | inl _ => "[Image uploaded but could not be processed]"
    end
  else "".

(** [enhanced_prompt] of [evaluate_essay]. *)
Definition enhanced_prompt (prompt_text image_description task_type : string)
    : string :=
  if PyStr.truthy image_description && PyStr.contains "Task 1" task_type then
    if PyStr.truthy (strip prompt_text) then
      prompt_text +:+ NL +:+ NL +:+ "Visual Data Description:" +:+ NL
      +:+ image_description
    else "Visual Data Description:" +:+ NL +:+ image_description
  else prompt_text.

(** One evaluation read back from the history store; a key may be
    missing. *)
Record HistoryEntry : Type := {
  h_word_count : option Z;
  h_timestamp : option string;
  h_essay_text : option string;
  h_evaluation_report : option string
}.

(** [s[:n] + "..." if len(s) > n else s] *)
Definition excerpt (n : Z) (s : string) : string :=
  if PyStr.len s >? n then PyStr.slice_to n s +:+ "..." else s.

(** One dictionary of [previous_attempts]; [attempt_number] is the key no
    node reads. *)
Record AttemptEntry : Type := {
  attempt_number : Z;
  attempt_fields : PriorAttempt
}.

Fixpoint previous_attempts_from (i : Z) (history : list HistoryEntry)
    : list AttemptEntry :=
  match history with
  | [] => []
  | h :: rest =>
      {| attempt_number := i + 1;
         attempt_fields :=
           {| pa_word_count := get_or (h_word_count h) 0;
              pa_timestamp := get_or (h_timestamp h) "";
              pa_essay_text := excerpt 200 (get_or (h_essay_text h) "");
              pa_evaluation_summary :=
                excerpt 500 (get_or (h_evaluation_report h) "") |} |}
      :: previous_attempts_from (i + 1) rest
  end.

(** The list comprehension over [enumerate(history)]. *)
Definition previous_attempts_of (history : list HistoryEntry) : list AttemptEntry :=
  previous_attempts_from 0 history.

(** The fields of [EvaluationResponse] that do not depend on the clock. *)
Record EvaluationResponse : Type := {
  er_report : option string;
  er_error : option string;
  er_word_count : option Z;
  er_image_description : option string
}.

(** Truth value of a state dictionary: it has some key. *)
Definition dict_truthy (s : GraphState) : bool :=
  match task_type s, prompt_text s, essay_text s, word_count s,
        previous_attempts s, evaluations s, final_report s, error s with
  | None, None, None, None, None, None, None, None => false
  | _, _, _, _, _, _, _, _ => true
  end.

(** The "Handle results" part of [evaluate_essay]. *)
Definition evaluation_response (final_state : option GraphState)
    (word_count : Z) (image_description : string) : EvaluationResponse :=
  let description :=
    if PyStr.truthy image_description then Some image_description else None in
  match final_state with
  | Some state =>
      if dict_truthy state then
        if get_truthy (final_report state) && negb (get_truthy (error state))
        then {| er_report := final_report state; er_error := None;
                er_word_count := Some word_count;
                er_image_description := description |}
        else {| er_report := None;
                er_error :=
                  Some (get_or (error state)
                          "Evaluation completed but no report generated");
                er_word_count := Some word_count;
                er_image_description := description |}
      else {| er_report := None;
              er_error := Some "No evaluation result was generated";
              er_word_count := Some word_count;
              er_image_description := None |}
  | None => {| er_report := None;
               er_error := Some "No evaluation result was generated";
               er_word_count := Some word_count;
               er_image_description := None |}
  end.

(** An essay of sixty words. *)
Definition sixty_words : string :=
  PyStr.join " " (repeat "word" 60).

(** ** llm_config.py: the choice of the client *)

(** The class attributes of [UniversalLLMConfig] that [get_llm] reads,
    as read from the environment; [TEMPERATURE] is a float that is only
    passed on and is left out.  A key that is not in the environment is
    [None]. *)
Record LLMSettings : Type := {
  PROVIDER : string;
  MODEL_NAME : string;
  MAX_RETRIES : Z;
  TIMEOUT : Z;
  GOOGLE_API_KEY : option string;
  OPENAI_API_KEY : option string;
  ANTHROPIC_API_KEY : option string;
  DEEPSEEK_API_KEY : option string;
  XAI_API_KEY : option string;
  GROQ_API_KEY : option string;
  TOGETHER_API_KEY : option string;
  CUSTOM_API_KEY : option string;
  CUSTOM_BASE_URL : option string
}.

Inductive client_class : Type :=
| ChatGoogleGenerativeAI
| ChatOpenAI
| ChatAnthropic.

(** The arguments a client is constructed with. *)
Record LLMClient : Type := {
  cl_class : client_class;
  cl_model : string;
  cl_timeout : Z;
  cl_max_retries : Z;
  cl_api_key : string;
  cl_base_url : option string
}.

(** [PROVIDER_URLS[name]] for the names [get_llm] looks up. *)
Definition PROVIDER_URLS (name : string) : string :=
  if String.eqb name "deepseek" then "https://api.deepseek.com"
  else if String.eqb name "xai" then "https://api.x.ai/v1"
  else if String.eqb name "grok" then "https://api.x.ai/v1"
  else if String.eqb name "groq" then "https://api.groq.com/openai/v1"
  else if String.eqb name "together" then "https://api.together.xyz/v1"
  else if String.eqb name "ollama" then "http://localhost:11434/v1"
  else "http://localhost:1234/v1".

Definition make_client (cfg : LLMSettings) (class : client_class)
    (api_key : string) (base_url : option string) : LLMClient :=
  {| cl_class := class; cl_model := MODEL_NAME cfg;
     cl_timeout := TIMEOUT cfg; cl_max_retries := MAX_RETRIES cfg;
     cl_api_key := api_key; cl_base_url := base_url |}.

(** A client of [class] that needs the key [key], named [key_name] in the
    error message. *)
Definition keyed_client (cfg : LLMSettings) (class : client_class)
    (key : option string) (key_name : string) (base_url : option string)
    : exn + LLMClient :=
  if negb (opt_truthy key) then
    inl (ValueError (key_name +:+ " not found in environment"))
  else inr (make_client cfg class (get_or key "") base_url).

(** [a or b] for an optional string [a]. *)
Definition or_else (a : option string) (b : string) : string :=
  if opt_truthy a then get_or a "" else b.

Definition unsupported_provider_message (cfg : LLMSettings) : string :=
  "Unsupported LLM provider: " +:+ PROVIDER cfg +:+ ". "
  +:+ "Supported: google, openai, anthropic, deepseek, grok, groq, together, ollama, lmstudio, local, custom".

Definition get_llm (cfg : LLMSettings) : exn + LLMClient :=
  let provider := PyStr.lower (PROVIDER cfg) in
  if in_list provider ["google"; "gemini"] then
    keyed_client cfg ChatGoogleGenerativeAI (GOOGLE_API_KEY cfg)
                 "GOOGLE_API_KEY" None
  else if in_list provider ["openai"; "chatgpt"] then
    keyed_client cfg ChatOpenAI (OPENAI_API_KEY cfg) "OPENAI_API_KEY" None
  else if in_list provider ["anthropic"; "claude"] then
    keyed_client cfg ChatAnthropic (ANTHROPIC_API_KEY cfg)
                 "ANTHROPIC_API_KEY" None
  else if String.eqb provider "deepseek" then
    keyed_client cfg ChatOpenAI (DEEPSEEK_API_KEY cfg) "DEEPSEEK_API_KEY"
                 (Some (PROVIDER_URLS "deepseek"))
  else if in_list provider ["grok"; "xai"] then
    keyed_client cfg ChatOpenAI (XAI_API_KEY cfg) "XAI_API_KEY"
                 (Some (PROVIDER_URLS "grok"))
  else if String.eqb provider "groq" then
    keyed_client cfg ChatOpenAI (GROQ_API_KEY cfg) "GROQ_API_KEY"
                 (Some (PROVIDER_URLS "groq"))
  else if in_list provider ["together"; "llama-together"] then
    keyed_client cfg ChatOpenAI (TOGETHER_API_KEY cfg) "TOGETHER_API_KEY"
                 (Some (PROVIDER_URLS "together"))
  else if in_list provider ["ollama"; "local-ollama"] then
    inr (make_client cfg ChatOpenAI "ollama"
           (Some (or_else (CUSTOM_BASE_URL cfg) (PROVIDER_URLS "ollama"))))
  else if in_list provider ["lmstudio"; "local-lmstudio"] then
    inr (make_client cfg ChatOpenAI "lmstudio"
           (Some (or_else (CUSTOM_BASE_URL cfg) (PROVIDER_URLS "lmstudio"))))
  else if String.eqb provider "local" then
    if negb (opt_truthy (CUSTOM_BASE_URL cfg)) then
      inl (ValueError "CUSTOM_BASE_URL required for local models")
    else inr (make_client cfg ChatOpenAI "local"
                (Some (get_or (CUSTOM_BASE_URL cfg) "")))
  else if String.eqb provider "custom" then
    if negb (opt_truthy (CUSTOM_API_KEY cfg)) then
      inl (ValueError "CUSTOM_API_KEY not found in environment")
    else if negb (opt_truthy (CUSTOM_BASE_URL cfg)) then
      inl (ValueError "CUSTOM_BASE_URL not found in environment")
    else inr (make_client cfg ChatOpenAI (get_or (CUSTOM_API_KEY cfg) "")
                (Some (get_or (CUSTOM_BASE_URL cfg) "")))
  else inl (ValueError (unsupported_provider_message cfg)).

(** The provider names the error message of [get_llm] lists. *)
Definition names_in_message : list string :=
  ["google"; "openai"; "anthropic"; "deepseek"; "grok"; "groq"; "together";
   "ollama"; "lmstudio"; "local"; "custom"].

Definition sample_settings : LLMSettings :=
  {| PROVIDER := "Ollama"; MODEL_NAME := "llama3"; MAX_RETRIES := 3;
     TIMEOUT := 120; GOOGLE_API_KEY := None; OPENAI_API_KEY := None;
     ANTHROPIC_API_KEY := None; DEEPSEEK_API_KEY := None;
     XAI_API_KEY := None; GROQ_API_KEY := None; TOGETHER_API_KEY := None;
     CUSTOM_API_KEY := None; CUSTOM_BASE_URL := Some "" |}.

(** ** data_manager.py: image files of a question *)

(** [_get_image_extension] *)
Definition get_image_extension (base64_data : string) : string :=
  if String.prefix "/9j/" base64_data then ".jpg"
  else if String.prefix "iVBORw0KGgo" base64_data then ".png"
  else if String.prefix "R0lGOD" base64_data then ".gif"
  else if String.prefix "JVBERi0" base64_data then ".pdf"
  else ".jpg".

(** The file name [save_question] writes the image of a question to. *)
Definition saved_image_filename (question_id image_data : string) : string :=
  question_id +:+ "_image" +:+ get_image_extension image_data.

(** The file names [delete_question] removes. *)
Definition deleted_image_filenames (question_id : string) : list string :=
  map (fun ext => question_id +:+ "_image" +:+ ext)
      [".jpg"; ".jpeg"; ".png"; ".gif"; ".pdf"; ".txt"].

(** The file name [get_question] reads the image from when the stored
    question has no ["image_filename"]. *)
Definition default_image_filename (question_id : string) : string :=
  question_id +:+ "_image.jpg".

(** The shape of a client: settings copied, key and base URL not empty,
    a base URL only for the OpenAI-compatible class. *)
Definition well_formed_client (cfg : LLMSettings) (client : LLMClient) : Prop :=
  cl_api_key client <> ""
  /\ cl_model client = MODEL_NAME cfg
  /\ cl_timeout client = TIMEOUT cfg
  /\ cl_max_retries client = MAX_RETRIES cfg
  /\ (forall url, cl_base_url client = Some url -> url <> "")
  /\ (cl_class client <> ChatOpenAI -> cl_base_url client = None).


(** ** graph_nodes.py: loading a rubric *)

(** [key in container] for a value read from a JSON file: key membership
    for a dictionary, element membership for a list, substring test for a
    string; any other value is not iterable and raises [TypeError]. *)
Definition py_in (key : string) (container : py_value) : exn + bool :=
  match container with
  | PyDict d => inr (has_key d key)
  | PyList l =>
      inr (existsb (fun x => match x with
                             | PyStr s => String.eqb s key
                             | _ => false
                             end) l)
  | PyStr s => inr (PyStr.contains key s)
  | _ => inl (OtherException "argument is not iterable")
  end.

(** [all(key in container for key in keys)] *)
Fixpoint py_all_in (keys : list string) (container : py_value) : exn + bool :=
  match keys with
  | [] => inr true
  | key :: rest =>
      match py_in key container with
      | inl e => inl e
      | inr false => inr false
      | inr true => py_all_in rest container
      end
  end.

Definition required_keys : list string :=
  ["category"; "criteria_to_evaluate"; "output_format"].

(** [load_rubric]; [read_json] stands for opening and parsing the file
    of that name, with the exception it raises when the file is missing
    or malformed.  Every handler of the function raises the exception
    again. *)
Definition load_rubric (read_json : string -> exn + py_value)
    (filename : string) : exn + py_value :=
  match read_json filename with
  | inl e => inl e
  | inr rubric =>
      match py_all_in required_keys rubric with
      | inl e => inl e
      | inr false => inl (ValueError ("Invalid rubric structure in " +:+ filename))
      | inr true => inr rubric
      end
  end.

(** [list(rubric_data['output_format'].keys())] in
    [create_evaluator_node]: subscripting anything but a dictionary with
    a string, and [.keys()] of anything but a dictionary, raise. *)
Definition expected_output_keys_of (read_json : string -> exn + py_value)
    (rubric_filename : string) : exn + list string :=
  match load_rubric read_json rubric_filename with
  | inl e => inl e
  | inr (PyDict rubric_data) =>
      match rubric_data !! "output_format" with
      | Some (PyDict output_format) => inr (map fst (map_to_list output_format))
      | Some _ => inl (OtherException "object has no attribute 'keys'")
      | None => inl (OtherException "'output_format'")
      end
  | inr _ => inl (OtherException "indices must be integers")
  end.

(** A rubric file in the expected shape. *)
Definition sample_rubric : py_value :=
  PyDict {[ "category" := PyStr "Lexical Resource";
            "criteria_to_evaluate" := PyList [PyStr "range"; PyStr "accuracy"];
            "output_format" :=
              PyDict {[ "band_score" := PyStr "number";
                        "feedback" := PyStr "string" ]} ]}.

(** ** graph_nodes.py: the word count in the rubric text *)

(** [str(n)] for an integer. *)
Definition str_int (n : Z) : string := NilZero.string_of_int (Z.to_int n).

(** [s.replace(old, new)] for a non-empty [old]: occurrences are replaced
    from left to right without overlap.  [skip] counts the characters of
    an occurrence still to be dropped. *)
Fixpoint replace_aux (old new : string) (skip : nat) (s : string) : string :=
  match s with
  | EmptyString => EmptyString
  | String c t =>
      match skip with
      | S k => replace_aux old new k t
      | O =>
          if String.prefix old s then
            new +:+ replace_aux old new (String.length old - 1) t
          else String c (replace_aux old new 0 t)
      end
  end.

(** [s.replace("", new)] puts [new] before every character and at the
    end. *)
Fixpoint intersperse (new s : string) : string :=
  match s with
  | EmptyString => new
  | String c t => new +:+ String c (intersperse new t)
  end.

Definition str_replace (old new s : string) : string :=
  match old with
  | EmptyString => intersperse new s
  | _ => replace_aux old new 0 s
  end.

Definition word_count_placeholder : string := "{word_count}".

(** [prepare_rubric_with_word_count]; [rubric_str] is the text
    [json.dumps(rubric_data, indent=2)] gives. *)
Definition prepare_rubric_with_word_count (rubric_str : string)
    (word_count : Z) : string :=
  if PyStr.contains word_count_placeholder rubric_str then
    str_replace word_count_placeholder (str_int word_count) rubric_str
  else rubric_str.

(** The characters of a decimal numeral. *)
Definition is_decimal_char (c : ascii) : bool :=
  PyStr.contains (String c EmptyString) "-0123456789".

(** ** The environment: main.py's check and the class attributes *)

(** [validate_environment]; [getenv] is [os.getenv].  The LangSmith part
    only logs. *)
Definition validate_environment (getenv : string -> option string) : exn + unit :=
  let required_vars := ["GOOGLE_API_KEY"] in
  let missing_vars :=
    List.filter (fun var => negb (opt_truthy (getenv var))) required_vars in
  match missing_vars with
  | [] => inr tt
  | _ => inl (ValueError ("Missing required environment variables: "
                          +:+ PyStr.join ", " missing_vars))
  end.

(** The class attributes of [UniversalLLMConfig]; [max_retries] and
    [timeout] are the integers parsed from [MODEL_MAX_RETRIES] and
    [MODEL_TIMEOUT]. *)
Definition settings_from_env (getenv : string -> option string)
    (max_retries timeout : Z) : LLMSettings :=
  {| PROVIDER := PyStr.lower (get_or (getenv "LLM_PROVIDER") "google");
     MODEL_NAME := get_or (getenv "MODEL_NAME") "gemini-2.5-flash";
     MAX_RETRIES := max_retries;
     TIMEOUT := timeout;
     GOOGLE_API_KEY := getenv "GOOGLE_API_KEY";
     OPENAI_API_KEY := getenv "OPENAI_API_KEY";
     ANTHROPIC_API_KEY := getenv "ANTHROPIC_API_KEY";
     DEEPSEEK_API_KEY := getenv "DEEPSEEK_API_KEY";
     XAI_API_KEY := getenv "XAI_API_KEY";
     GROQ_API_KEY := getenv "GROQ_API_KEY";
     TOGETHER_API_KEY := getenv "TOGETHER_API_KEY";
     CUSTOM_API_KEY := getenv "CUSTOM_API_KEY";
     CUSTOM_BASE_URL := getenv "CUSTOM_BASE_URL" |}.

(** An environment that only holds a Google key. *)
Definition google_only_env (name : string) : option string :=
  if String.eqb name "GOOGLE_API_KEY" then Some "AIza-key" else None.

(** * Properties *)

(** ** The model on examples *)

Example split_ex : PyStr.split ("  two" +:+ String "009" "words
 here ") = ["two"; "words"; "here"].
Proof. reflexivity. Qed.

Example lower_ex : PyStr.lower "Academic TASK 1" = "academic task 1".
Proof. reflexivity. Qed.

Example run_success :
  run (constant_llm band_only "Your band score is 6.0") 3 band_keys
      (graph_inputs "Academic Task 2" "" sample_essay []) []
  = (inr (merge (graph_inputs "Academic Task 2" "" sample_essay [])
            (merge (evaluations_update
                      {[ "task_response" := band_only;
                         "coherence_cohesion" := band_only;
                         "lexical_resource" := band_only;
                         "grammatical_range" := band_only ]})
                   (report_update "Your band score is 6.0" None))),
     let p c := {| ip_criterion := c;
                   ip_essay := "Some people think that cities grow.";
                   ip_word_count := 6; ip_previous_attempts := [];
                   ip_visual_data := None;
                   ip_comparison_instruction := Some "" |} in
     [LLMJsonCall (p "task_response"); LLMJsonCall (p "coherence_cohesion");
      LLMJsonCall (p "lexical_resource"); LLMJsonCall (p "grammatical_range");
      LLMTextCall {| sp_task_type := "Academic Task 2";
                     sp_evaluations :=
                       {[ "task_response" := band_only;
                          "coherence_cohesion" := band_only;
                          "lexical_resource" := band_only;
                          "grammatical_range" := band_only ]};
                     sp_previous_attempts := [] |}]).
Proof. vm_compute. reflexivity. Qed.


(** ** Router and error node *)

Lemma router_cases (state : GraphState) :
  let t := PyStr.lower (get_or (task_type state) "") in
  should_evaluate_task_1_or_2 state =
    if PyStr.contains "task 1" t then evaluate_task_achievement_t1
    else if PyStr.contains "task 2" t then evaluate_task_response_t2
    else handle_error.
Proof. reflexivity. Qed.

(** C10: a category that contains both "task 1" and "task 2" (after
    lower-casing) is routed to the Task 1 entry stage: the "task 1" test
    comes first. *)
Theorem router_task_1_first (state : GraphState) (category : string) :
  task_type state = Some category ->
  PyStr.contains "task 1" (PyStr.lower category) = true ->
  PyStr.contains "task 2" (PyStr.lower category) = true ->
  should_evaluate_task_1_or_2 state = evaluate_task_achievement_t1.
Proof.
  intros Hcat H1 _. rewrite router_cases, Hcat. simpl get_or.
  cbv zeta. now rewrite H1.
Qed.

Lemma router_task_1_first_witness :
  should_evaluate_task_1_or_2
    (graph_inputs "Academic Task 2 (was TASK 1)" "" sample_essay [])
  = evaluate_task_achievement_t1.
Proof.
  apply (router_task_1_first _ "Academic Task 2 (was TASK 1)");
    reflexivity.
Defined.

Lemma handle_error_node_report (state : GraphState) :
  exists m, error (handle_error_node state) = Some m
            /\ final_report (handle_error_node state) = Some (error_report m)
            /\ (error state = None -> m = unknown_error_message).
Proof.
  exists (get_or (error state) unknown_error_message).
  split; [reflexivity | split; [reflexivity |]].
  now intros ->.
Qed.

Lemma run_handle_error llm MAX_RETRIES keys (inputs : GraphState) tr :
  should_evaluate_task_1_or_2 inputs = handle_error ->
  run llm MAX_RETRIES keys inputs tr
  = (inr (merge inputs (handle_error_node inputs)), tr).
Proof. unfold run. now intros ->. Qed.

(** A category that names neither task is routed to the error terminal. *)
Lemma invalid_category_routed_to_handle_error
    (inputs : GraphState) (category : string) :
  get_or (task_type inputs) "" = category ->
  PyStr.contains "task 1" (PyStr.lower category) = false ->
  PyStr.contains "task 2" (PyStr.lower category) = false ->
  should_evaluate_task_1_or_2 inputs = handle_error.
Proof.
  intros Hcat H1 H2. rewrite router_cases, Hcat. cbv zeta.
  now rewrite H1, H2.
Qed.

(** Where the input dictionary has no ["error"] key the error terminal
    does what its comment announces: the message is the default one, it
    is set, and the report is the wrapper around it. *)
Lemma invalid_category_default_message
    llm MAX_RETRIES keys (inputs : GraphState) (category : string) tr :
  get_or (task_type inputs) "" = category ->
  PyStr.contains "task 1" (PyStr.lower category) = false ->
  PyStr.contains "task 2" (PyStr.lower category) = false ->
  error inputs = None ->
  exists s,
    run llm MAX_RETRIES keys inputs tr = (inr s, tr)
    /\ error s = Some unknown_error_message
    /\ is_set (error s)
    /\ final_report s = Some (error_report unknown_error_message).
Proof.
  intros Hcat H1 H2 Hnone.
  exists (merge inputs (handle_error_node inputs)).
  split.
  { apply run_handle_error.
    now apply (invalid_category_routed_to_handle_error inputs category). }
  unfold handle_error_node. rewrite Hnone. simpl.
  repeat split; reflexivity.
Qed.

(** C3, the code on the input dictionary that [main.py] builds: the
    dictionary always carries ["error": ""], so for a category that
    contains neither "task 1" nor "task 2" (after lower-casing) the
    router selects the error terminal, nothing is raised and no call is
    made, but [state.get('error', default)] finds the key and returns the
    empty string: the run ends with an error message that is not set and
    with the diagnostic wrapper around the empty message, where the
    comment in [handle_error_node] announces a default message. *)
Theorem invalid_category_error_message_not_set
    llm MAX_RETRIES keys (inputs : GraphState) (category : string) tr :
  get_or (task_type inputs) "" = category ->
  PyStr.contains "task 1" (PyStr.lower category) = false ->
  PyStr.contains "task 2" (PyStr.lower category) = false ->
  error inputs = Some "" ->
  should_evaluate_task_1_or_2 inputs = handle_error
  /\ exists s,
       run llm MAX_RETRIES keys inputs tr = (inr s, tr)
       /\ error s = Some ""
       /\ ~ is_set (error s)
       /\ final_report s = Some (error_report "")
       /\ final_report s <> Some (error_report unknown_error_message).
Proof.
  intros Hcat H1 H2 Hempty.
  assert (Hr : should_evaluate_task_1_or_2 inputs = handle_error)
    by now apply (invalid_category_routed_to_handle_error inputs category).
  split; [exact Hr |].
  exists (merge inputs (handle_error_node inputs)).
  split; [now apply run_handle_error |].
  unfold handle_error_node. rewrite Hempty. simpl.
  repeat split; try reflexivity.
  - intros H. exact (Bool.diff_false_true H).
  - intros H. vm_compute in H. discriminate H.
Qed.

Lemma invalid_category_error_message_not_set_witness :
  should_evaluate_task_1_or_2
    (graph_inputs "General Writing" "" sample_essay []) = handle_error
  /\ exists s,
       run failing_llm 3 band_keys
           (graph_inputs "General Writing" "" sample_essay []) []
       = (inr s, [])
       /\ error s = Some ""
       /\ ~ is_set (error s)
       /\ final_report s = Some (error_report "")
       /\ final_report s <> Some (error_report unknown_error_message).
Proof.
  apply (invalid_category_error_message_not_set
           failing_llm 3 band_keys _ "General Writing" []);
    reflexivity.
Defined.

(** ** Exceptions stop at the node boundary *)

Lemma try_except_returns {A} (m : Eff A) (h : exn -> Eff A) :
  (forall e tr, exists a tr', h e tr = (inr a, tr')) ->
  forall tr, exists a tr', try_except m h tr = (inr a, tr').
Proof.
  intros Hh tr. unfold try_except.
  destruct (m tr) as [[e | a] tr']; [apply Hh | eauto].
Qed.

Lemma evaluator_node_returns llm MAX_RETRIES criterion keys state tr :
  exists update tr',
    evaluator_node llm MAX_RETRIES criterion keys state tr = (inr update, tr').
Proof. apply try_except_returns. intros e tr0. eexists _, _. reflexivity. Qed.

Lemma synthesizer_node_returns llm MAX_RETRIES state tr :
  exists update tr',
    synthesizer_node llm MAX_RETRIES state tr = (inr update, tr').
Proof. apply try_except_returns. intros e tr0. eexists _, _. reflexivity. Qed.

(** ** Empty essay *)

(** C5: with an empty (or absent) essay text an evaluator node, whatever
    its criterion and rubric, returns the validation error as its update;
    the trace is untouched (no chain invocation, no sleep) and nothing is
    raised. *)
Theorem evaluator_node_empty_essay
    llm MAX_RETRIES criterion keys (state : GraphState) tr :
  get_truthy (essay_text state) = false ->
  evaluator_node llm MAX_RETRIES criterion keys state tr
  = (inr (Some (error_update ("Failed during " +:+ criterion
                              +:+ " evaluation: No essay text provided"))),
     tr).
Proof.
  intros He. unfold evaluator_node, try_except. now rewrite He.
Qed.

Lemma evaluator_node_empty_essay_witness :
  evaluator_node failing_llm 3 "lexical_resource" ["band_score"]
                 (graph_inputs "Academic Task 1" "A bar chart." "" []) []
  = (inr (Some (error_update
                  "Failed during lexical_resource evaluation: No essay text provided")),
     []).
Proof.
  apply (evaluator_node_empty_essay failing_llm 3 "lexical_resource"
           ["band_score"] (graph_inputs "Academic Task 1" "A bar chart." "" []) []).
  reflexivity.
Defined.

(** ** Synthesizer: short circuit and fallback *)

(** C7: when the error message is set on entry, the synthesizer leaves
    the trace untouched and returns the generic error report together
    with the error message it found; folding this update into the state
    changes [final_report] only. *)
Theorem synthesizer_node_error_short_circuit
    llm MAX_RETRIES (state : GraphState) tr :
  is_set (error state) ->
  let update := report_update generic_error_report (error state) in
  synthesizer_node llm MAX_RETRIES state tr = (inr (Some update), tr)
  /\ error (merge state update) = error state
  /\ final_report (merge state update) = Some generic_error_report
  /\ task_type (merge state update) = task_type state
  /\ prompt_text (merge state update) = prompt_text state
  /\ essay_text (merge state update) = essay_text state
  /\ word_count (merge state update) = word_count state
  /\ previous_attempts (merge state update) = previous_attempts state
  /\ evaluations (merge state update) = evaluations state.
Proof.
  unfold is_set. intros He. cbv zeta.
  split.
  - unfold synthesizer_node, try_except. now rewrite He.
  - simpl. destruct (error state); repeat split; reflexivity.
Qed.

Lemma synthesizer_node_error_short_circuit_witness :
  let state := merge (graph_inputs "Academic Task 2" "" sample_essay [])
                     (error_update "Failed during task_response evaluation: timeout") in
  let update := report_update generic_error_report (error state) in
  synthesizer_node failing_llm 3 state [] = (inr (Some update), [])
  /\ error (merge state update) = error state
  /\ final_report (merge state update) = Some generic_error_report
  /\ task_type (merge state update) = task_type state
  /\ prompt_text (merge state update) = prompt_text state
  /\ essay_text (merge state update) = essay_text state
  /\ word_count (merge state update) = word_count state
  /\ previous_attempts (merge state update) = previous_attempts state
  /\ evaluations (merge state update) = evaluations state.
Proof.
  apply (synthesizer_node_error_short_circuit failing_llm 3
           (merge (graph_inputs "Academic Task 2" "" sample_essay [])
                  (error_update "Failed during task_response evaluation: timeout"))
           []).
  reflexivity.
Defined.

Lemma dict_is_empty_true (d : gmap string py_value) :
  d = ∅ -> dict_is_empty d = true.
Proof. intros ->. reflexivity. Qed.

(** C6: the synthesizer never raises; and with no error message and no
    evaluations on entry it leaves the trace untouched (no chain
    invocation) and returns the static fallback report together with a
    synthesis error message. *)
Theorem synthesizer_node_no_evaluations llm MAX_RETRIES :
  (forall state tr, exists update tr',
      synthesizer_node llm MAX_RETRIES state tr = (inr update, tr'))
  /\ (forall (state : GraphState) tr,
        get_truthy (error state) = false ->
        get_or (evaluations state) ∅ = ∅ ->
        synthesizer_node llm MAX_RETRIES state tr
        = (inr (Some (report_update fallback_report
                        (Some "Synthesis error: No evaluation results found"))),
           tr)).
Proof.
  split; [apply synthesizer_node_returns |].
  intros state tr He Hev.
  unfold synthesizer_node, try_except.
  now rewrite He, (dict_is_empty_true _ Hev).
Qed.

Lemma synthesizer_node_no_evaluations_witness :
  synthesizer_node (constant_llm band_only "report") 3
                   (graph_inputs "Academic Task 2" "" sample_essay []) []
  = (inr (Some (report_update fallback_report
                  (Some "Synthesis error: No evaluation results found"))),
     []).
Proof.
  apply (proj2 (synthesizer_node_no_evaluations
                  (constant_llm band_only "report") 3)
               (graph_inputs "Academic Task 2" "" sample_essay []) []);
    reflexivity.
Defined.

(** ** Output validation *)

Lemma has_key_dom (d : gmap string py_value) (key : string) :
  has_key d key = true <-> key ∈ dom d.
Proof.
  unfold has_key. rewrite elem_of_dom.
  destruct (d !! key) as [v |]; split; intros H; done.
Qed.

Lemma validate_json_output_spec (result : py_value) (expected_keys : list string) :
  validate_json_output result expected_keys = true
  <-> exists d, result = PyDict d /\ list_to_set expected_keys ⊆ dom d.
Proof.
  split.
  - destruct result; simpl; try discriminate. intros H.
    exists d. split; [reflexivity |].
    intros k Hk. apply elem_of_list_to_set in Hk.
    apply has_key_dom. rewrite forallb_forall in H.
    apply H. by apply list_elem_of_In.
  - intros (d & -> & Hsub). simpl. apply forallb_forall.
    intros k Hk. apply has_key_dom, Hsub, elem_of_list_to_set.
    by apply list_elem_of_In.
Qed.

(** ** The retry loop of an evaluator *)

Section EvaluatorLoop.

Variable llm : Collaborator.
Variable MAX_RETRIES : Z.
Variable criterion : string.
Variable keys : list string.
Variable state : GraphState.
Variable params : invoke_params.

Lemma evaluator_attempt_rejected attempt tr :
  rejected keys (json_chain llm (call_count tr) params) = true ->
  evaluator_attempt llm MAX_RETRIES criterion keys state params attempt tr
  = (if attempt =? MAX_RETRIES - 1
     then inl (failure_exn (json_chain llm (call_count tr) params))
     else inr None,
     tr ++ [LLMJsonCall params]).
Proof.
  unfold evaluator_attempt, try_except, invoke_json, mbind, eff_bind, rejected.
  destruct (json_chain llm (call_count tr) params) as [e | v]; simpl.
  - intros _. destruct e; destruct (attempt =? MAX_RETRIES - 1); reflexivity.
  - intros Hv. apply negb_true_iff in Hv. rewrite Hv.
    destruct (attempt =? MAX_RETRIES - 1); reflexivity.
Qed.

Lemma evaluator_attempt_accepted attempt tr v :
  json_chain llm (call_count tr) params = inr v ->
  validate_json_output v keys = true ->
  evaluator_attempt llm MAX_RETRIES criterion keys state params attempt tr
  = (inr (Some (evaluations_update
                  (<[criterion := v]> (get_or (evaluations state) ∅)))),
     tr ++ [LLMJsonCall params]).
Proof.
  intros Hout Hv.
  unfold evaluator_attempt, try_except, invoke_json, mbind, eff_bind.
  now rewrite Hout, Hv.
Qed.

(** When every answer is rejected, a loop whose last attempt is
    [MAX_RETRIES - 1] raises the failure of some call after one call per
    attempt. *)
Lemma evaluator_loop_all_rejected (earlier : list Z) :
  (forall n, rejected keys (json_chain llm n params) = true) ->
  Forall (fun a => a <> MAX_RETRIES - 1) earlier ->
  forall tr, exists n,
    evaluator_loop llm MAX_RETRIES criterion keys state params
                   (earlier ++ [MAX_RETRIES - 1]) tr
    = (inl (failure_exn (json_chain llm n params)),
       tr ++ retry_trace (LLMJsonCall params) (earlier ++ [MAX_RETRIES - 1])).
Proof.
  intros Hrej. induction earlier as [| a rest IH]; intros Hne tr.
  - exists (call_count tr). simpl.
    unfold mbind, eff_bind. rewrite evaluator_attempt_rejected by apply Hrej.
    now rewrite Z.eqb_refl.
  - inversion Hne as [| ? ? Ha Hrest]; subst.
    destruct (IH Hrest ((tr ++ [LLMJsonCall params]) ++ [Sleep (2 ^ a)]))
      as [n Hn].
    exists n.
    change ((a :: rest) ++ [MAX_RETRIES - 1])
      with (a :: (rest ++ [MAX_RETRIES - 1])).
    cbn [evaluator_loop]. unfold mbind at 1, eff_bind at 1.
    rewrite evaluator_attempt_rejected by apply Hrej.
    apply Z.eqb_neq in Ha. rewrite Ha.
    unfold mbind at 1, eff_bind at 1, time_sleep at 1.
    rewrite Hn. f_equal.
    rewrite <- !app_assoc. simpl.
    destruct (rest ++ [MAX_RETRIES - 1]) eqn:E; [| reflexivity].
    now destruct rest.
Qed.

End EvaluatorLoop.

(** ** [range] and the events of failed attempts *)

Lemma range_last (n : Z) :
  1 <= n -> range n = range (n - 1) ++ [n - 1].
Proof.
  intros Hn. unfold range.
  replace (Z.to_nat n) with (Z.to_nat (n - 1) + 1)%nat by lia.
  rewrite seq_app, map_app. simpl. do 2 f_equal. lia.
Qed.

Lemma range_below (n : Z) : Forall (fun a => a <> n) (range n).
Proof.
  unfold range. apply List.Forall_forall. intros a Ha.
  apply in_map_iff in Ha as (k & <- & Hk). apply in_seq in Hk. lia.
Qed.

Lemma range_first (n : Z) : 1 <= n -> exists rest, range n = 0 :: rest.
Proof.
  intros Hn. unfold range.
  destruct (Z.to_nat n) as [| k] eqn:E; [lia |].
  simpl. eauto.
Qed.

Lemma length_range (n : Z) : length (range n) = Z.to_nat n.
Proof. unfold range. now rewrite length_map, length_seq. Qed.

Lemma call_count_app (tr1 tr2 : list event) :
  call_count (tr1 ++ tr2) = (call_count tr1 + call_count tr2)%nat.
Proof. unfold call_count. now rewrite filter_app, length_app. Qed.

Lemma call_count_cons (ev : event) (tr : list event) :
  call_count (ev :: tr)
  = ((if is_llm_call ev then 1 else 0) + call_count tr)%nat.
Proof.
  unfold call_count. destruct (is_llm_call ev) eqn:E.
  - rewrite filter_cons_True by done. reflexivity.
  - rewrite filter_cons_False by (rewrite E; discriminate). reflexivity.
Qed.

Lemma call_count_retry_trace (call : event) (attempts : list Z) :
  is_llm_call call = true ->
  call_count (retry_trace call attempts) = length attempts.
Proof.
  intros Hc. induction attempts as [| a rest IH]; [reflexivity |].
  destruct rest as [| b rest].
  - simpl. now rewrite call_count_cons, Hc.
  - change (retry_trace call (a :: b :: rest))
      with (call :: Sleep (2 ^ a) :: retry_trace call (b :: rest)).
    rewrite !call_count_cons, Hc, IH. reflexivity.
Qed.

Lemma retry_trace_cons (call : event) (a : Z) (rest : list Z) :
  rest <> [] ->
  retry_trace call (a :: rest) = call :: Sleep (2 ^ a) :: retry_trace call rest.
Proof. destruct rest; [done | reflexivity]. Qed.

Lemma sleeps_call (call : event) (tr : list event) :
  is_llm_call call = true -> sleeps (call :: tr) = sleeps tr.
Proof. destruct call; simpl; try discriminate; reflexivity. Qed.

Lemma sleeps_retry_trace (call : event) (earlier : list Z) (last : Z) :
  is_llm_call call = true ->
  sleeps (retry_trace call (earlier ++ [last])) = map (fun i => 2 ^ i) earlier.
Proof.
  intros Hc. induction earlier as [| a rest IH].
  - change (retry_trace call ([] ++ [last])) with [call].
    now rewrite sleeps_call.
  - change ((a :: rest) ++ [last]) with (a :: (rest ++ [last])).
    rewrite retry_trace_cons by (destruct rest; discriminate).
    rewrite sleeps_call by exact Hc.
    change (sleeps (Sleep (2 ^ a) :: retry_trace call (rest ++ [last])))
      with (2 ^ a :: sleeps (retry_trace call (rest ++ [last]))).
    now rewrite IH.
Qed.


(** ** An evaluator whose every attempt fails *)

Lemma evaluator_node_all_rejected
    llm MAX_RETRIES criterion keys (state : GraphState) tr :
  1 <= MAX_RETRIES ->
  get_truthy (essay_text state) = true ->
  let params := evaluator_params criterion state
                  (sanitize_text (get_or (essay_text state) "")) in
  (forall n, rejected keys (json_chain llm n params) = true) ->
  exists n tr',
    evaluator_node llm MAX_RETRIES criterion keys state tr
    = (inr (Some (error_update
                    ("Failed during " +:+ criterion +:+ " evaluation: "
                     +:+ str_exn (failure_exn (json_chain llm n params))))),
       tr ++ tr')
    /\ tr' = retry_trace (LLMJsonCall params) (range MAX_RETRIES)
    /\ Z.of_nat (call_count tr') = MAX_RETRIES
    /\ sleeps tr' = map (fun i => 2 ^ i) (range (MAX_RETRIES - 1)).
Proof.
  intros Hmax Hessay params Hrej.
  destruct (evaluator_loop_all_rejected llm MAX_RETRIES criterion keys state
              params (range (MAX_RETRIES - 1)) Hrej
              (range_below (MAX_RETRIES - 1)) tr) as [n Hn].
  rewrite <- range_last in Hn by exact Hmax.
  exists n, (retry_trace (LLMJsonCall params) (range MAX_RETRIES)).
  split; [| split; [reflexivity | split]].
  - unfold evaluator_node, try_except. rewrite Hessay.
    change (negb true) with false. cbv iota.
    fold params. now rewrite Hn.
  - rewrite call_count_retry_trace by reflexivity.
    rewrite length_range. lia.
  - rewrite (range_last MAX_RETRIES) by exact Hmax.
    now apply sleeps_retry_trace.
Qed.




Example default_retries_trace :
  let p := {| ip_criterion := "task_response";
              ip_essay := "Some people think that cities grow.";
              ip_word_count := 6; ip_previous_attempts := [];
              ip_visual_data := None;
              ip_comparison_instruction := Some "" |} in
  evaluator_node failing_llm 3 "task_response" ["band_score"]
                 (graph_inputs "Academic Task 2" "" sample_essay []) []
  = (inr (Some (error_update
                  "Failed during task_response evaluation: connection refused")),
     [LLMJsonCall p; Sleep 1; LLMJsonCall p; Sleep 2; LLMJsonCall p]).
Proof. vm_compute. reflexivity. Qed.

(** ** Acceptance of an answer by an evaluator *)

Lemma evaluator_node_first_accepted
    llm MAX_RETRIES criterion keys (state : GraphState) tr v :
  1 <= MAX_RETRIES ->
  get_truthy (essay_text state) = true ->
  let params := evaluator_params criterion state
                  (sanitize_text (get_or (essay_text state) "")) in
  json_chain llm (call_count tr) params = inr v ->
  validate_json_output v keys = true ->
  evaluator_node llm MAX_RETRIES criterion keys state tr
  = (inr (Some (evaluations_update
                  (<[criterion := v]> (get_or (evaluations state) ∅)))),
     tr ++ [LLMJsonCall params]).
Proof.
  intros Hmax Hessay params Hout Hv.
  destruct (range_first MAX_RETRIES Hmax) as [rest Hr].
  unfold evaluator_node, try_except. rewrite Hessay.
  change (negb true) with false. cbv iota. fold params. rewrite Hr.
  cbn [evaluator_loop]. unfold mbind at 1, eff_bind at 1.
  now rewrite (evaluator_attempt_accepted llm MAX_RETRIES criterion keys state
                 params 0 tr v Hout Hv).
Qed.




Example missing_key_exhausts_retries :
  exists p,
    evaluator_node (constant_llm band_only "") 3 "task_response"
                   ["band_score"; "comment"]
                   (graph_inputs "Academic Task 2" "" sample_essay []) []
    = (inr (Some (error_update
                    "Failed during task_response evaluation: LLM returned invalid output format")),
       [LLMJsonCall p; Sleep 1; LLMJsonCall p; Sleep 2; LLMJsonCall p]).
Proof. eexists. vm_compute. reflexivity. Qed.

(** ** The retry loop of the synthesizer *)

Lemma synthesizer_loop_step llm MAX_RETRIES params (a : Z) (rest : list Z) tr :
  synthesizer_loop llm MAX_RETRIES params (a :: rest) tr
  = match text_chain llm (call_count tr) params with
    | inr r => (inr (Some (report_update r None)), tr ++ [LLMTextCall params])
    | inl e =>
        if a =? MAX_RETRIES - 1 then (inl e, tr ++ [LLMTextCall params])
        else synthesizer_loop llm MAX_RETRIES params rest
               ((tr ++ [LLMTextCall params]) ++ [Sleep (2 ^ a)])
    end.
Proof.
  cbn [synthesizer_loop].
  unfold mbind, eff_bind, try_except, invoke_text, time_sleep.
  destruct (text_chain llm (call_count tr) params) as [e | r];
    [| reflexivity].
  destruct (a =? MAX_RETRIES - 1); reflexivity.
Qed.

Lemma synthesizer_loop_outcome llm MAX_RETRIES params (earlier : list Z) :
  Forall (fun a => a <> MAX_RETRIES - 1) earlier ->
  forall tr,
    (exists n r tr',
        text_chain llm n params = inr r
        /\ synthesizer_loop llm MAX_RETRIES params
                            (earlier ++ [MAX_RETRIES - 1]) tr
           = (inr (Some (report_update r None)), tr'))
    \/ (exists e tr',
          synthesizer_loop llm MAX_RETRIES params
                           (earlier ++ [MAX_RETRIES - 1]) tr
          = (inl e, tr')).
Proof.
  induction earlier as [| a rest IH]; intros Hne tr.
  - change ([] ++ [MAX_RETRIES - 1]) with [MAX_RETRIES - 1].
    rewrite synthesizer_loop_step, Z.eqb_refl.
    destruct (text_chain llm (call_count tr) params) as [e | r] eqn:E.
    + right. eauto.
    + left. exists (call_count tr), r. eauto.
  - inversion Hne as [| ? ? Ha Hrest]; subst.
    change ((a :: rest) ++ [MAX_RETRIES - 1])
      with (a :: (rest ++ [MAX_RETRIES - 1])).
    rewrite synthesizer_loop_step.
    destruct (text_chain llm (call_count tr) params) as [e | r] eqn:E.
    + apply Z.eqb_neq in Ha. rewrite Ha. apply (IH Hrest).
    + left. exists (call_count tr), r. eauto.
Qed.

(** What the synthesizer returns when at least one attempt is allowed. *)
Lemma synthesizer_node_report llm MAX_RETRIES (state : GraphState) tr :
  1 <= MAX_RETRIES ->
  exists report err tr',
    synthesizer_node llm MAX_RETRIES state tr
    = (inr (Some (report_update report err)), tr')
    /\ ((report = generic_error_report /\ err = error state
         /\ is_set (error state))
        \/ (report = fallback_report /\ is_set err)
        \/ (err = None /\ ~ is_set (error state)
            /\ exists n p, text_chain llm n p = inr report)).
Proof.
  intros Hmax. unfold synthesizer_node, try_except.
  destruct (get_truthy (error state)) eqn:He.
  - eexists _, _, _. split; [reflexivity |]. left. auto.
  - destruct (dict_is_empty (get_or (evaluations state) ∅)).
    + eexists _, _, _. split; [reflexivity |]. right; left.
      split; reflexivity.
    + rewrite (range_last MAX_RETRIES Hmax).
      destruct (synthesizer_loop_outcome llm MAX_RETRIES
                  (synthesizer_params state (get_or (evaluations state) ∅))
                  (range (MAX_RETRIES - 1)) (range_below _) tr)
        as [(n & r & tr' & Hr & ->) | (e & tr' & ->)].
      * eexists _, _, _. split; [reflexivity |]. right; right.
        split; [reflexivity |]. split; [| eauto].
        unfold is_set. rewrite He. discriminate.
      * eexists _, _, _. split; [reflexivity |]. right; left.
        split; reflexivity.
Qed.

(** ** The whole run *)

Lemma node_function_returns llm MAX_RETRIES keys n state tr :
  exists update tr',
    node_function llm MAX_RETRIES keys n state tr = (inr update, tr').
Proof.
  destruct n; simpl;
    try apply evaluator_node_returns;
    try apply synthesizer_node_returns.
  eexists _, _. reflexivity.
Qed.

Lemma run_from_step llm MAX_RETRIES keys steps n state tr :
  run_from llm MAX_RETRIES keys (S steps) n state tr
  = match node_function llm MAX_RETRIES keys n state tr with
    | (inl e, tr') => (inl e, tr')
    | (inr update, tr') =>
        let state' := match update with
                      | Some u => merge state u
                      | None => state
                      end in
        match next_node n with
        | None => (inr state', tr')
        | Some n' => run_from llm MAX_RETRIES keys steps n' state' tr'
        end
    end.
Proof.
  cbn [run_from]. unfold mbind, eff_bind.
  destruct (node_function llm MAX_RETRIES keys n state tr) as [[e | u] tr'];
    [reflexivity |].
  destruct (next_node n); reflexivity.
Qed.

Lemma run_from_synthesizer llm MAX_RETRIES keys steps state tr :
  1 <= MAX_RETRIES ->
  exists s tr',
    run_from llm MAX_RETRIES keys (S steps) synthesizer state tr = (inr s, tr')
    /\ synthesized llm s.
Proof.
  intros Hmax. rewrite run_from_step. cbn [node_function next_node].
  destruct (synthesizer_node_report llm MAX_RETRIES state tr Hmax)
    as (report & err & tr' & -> & Hcase).
  eexists _, _. split; [reflexivity |].
  exists report. split; [reflexivity |].
  destruct Hcase as [(-> & -> & Hset) | [(-> & Hset) | (-> & Hnot & Htext)]].
  - left. split; [| now left].
    unfold is_set in *. simpl. now destruct (error state).
  - left. split; [| now right].
    unfold is_set in *. simpl. now destruct err.
  - right. split; [| exact Htext]. simpl. exact Hnot.
Qed.

Lemma run_from_stage llm MAX_RETRIES keys steps n n' :
  next_node n = Some n' ->
  (forall state tr, exists s tr',
      run_from llm MAX_RETRIES keys steps n' state tr = (inr s, tr')
      /\ synthesized llm s) ->
  forall state tr, exists s tr',
    run_from llm MAX_RETRIES keys (S steps) n state tr = (inr s, tr')
    /\ synthesized llm s.
Proof.
  intros Hnext Hrest state tr. rewrite run_from_step, Hnext.
  destruct (node_function_returns llm MAX_RETRIES keys n state tr)
    as (u & tr' & ->).
  apply Hrest.
Qed.

Lemma run_from_entry_stage llm MAX_RETRIES keys n state tr :
  1 <= MAX_RETRIES ->
  next_node n = Some evaluate_coherence_cohesion ->
  exists s tr',
    run_from llm MAX_RETRIES keys recursion_limit n state tr = (inr s, tr')
    /\ synthesized llm s.
Proof.
  intros Hmax Hnext. unfold recursion_limit.
  apply (run_from_stage _ _ _ _ _ _ Hnext).
  apply (run_from_stage _ _ _ _ evaluate_coherence_cohesion _ eq_refl).
  apply (run_from_stage _ _ _ _ evaluate_lexical_resource _ eq_refl).
  apply (run_from_stage _ _ _ _ evaluate_grammatical_range _ eq_refl).
  intros s0 tr0. now apply run_from_synthesizer.
Qed.

Lemma truthy_nonempty (s : string) : s <> "" -> PyStr.truthy s = true.
Proof. destruct s; [congruence | reflexivity]. Qed.

Lemma synthesized_report_set llm (s : GraphState) :
  (forall n p r, text_chain llm n p = inr r -> r <> "") ->
  synthesized llm s -> is_set (final_report s).
Proof.
  intros Htext (report & Hr & Hcase). unfold is_set. rewrite Hr. simpl.
  destruct Hcase as [(_ & [-> | ->]) | (_ & n & p & Hout)];
    try reflexivity.
  apply truthy_nonempty. eauto.
Qed.

(** C1, the claim as stated fails.  When every call fails, the run ends
    with both the report and the error message set; when the synthesis
    call answers with an empty text, it ends with both of them empty. *)
Lemma report_and_error_not_exclusive :
  (exists s tr,
      run failing_llm 3 band_keys
          (graph_inputs "Academic Task 2" "" sample_essay []) []
      = (inr s, tr)
      /\ is_set (final_report s) /\ is_set (error s))
  /\ (exists s tr,
        run (constant_llm band_only "") 3 band_keys
            (graph_inputs "Academic Task 2" "" sample_essay []) []
        = (inr s, tr)
        /\ ~ is_set (final_report s) /\ ~ is_set (error s)).
Proof.
  split; eexists _, _; (split; [vm_compute; reflexivity |]).
  - split; reflexivity.
  - split; intros H; exact (Bool.diff_false_true H).
Qed.

(** C1, amended: with [MAX_RETRIES >= 1] and a collaborator whose
    synthesis texts are never empty, every run completes without raising
    and its final report is non-empty, so the report and the error
    message are never both empty; they are not exclusive.  At the error
    terminal the report is the diagnostic wrapper around the returned
    error message, and that message is set as well unless the input
    dictionary carries an empty error entry.  At the synthesizer either
    the error message is set as well and the report is the generic error
    report or the fallback report, or the error message is not set and
    the report is a text of the collaborator. *)
Theorem run_ends_with_report llm MAX_RETRIES keys (inputs : GraphState) tr :
  1 <= MAX_RETRIES ->
  (forall n p r, text_chain llm n p = inr r -> r <> "") ->
  exists s tr',
    run llm MAX_RETRIES keys inputs tr = (inr s, tr')
    /\ is_set (final_report s)
    /\ ((should_evaluate_task_1_or_2 inputs = handle_error
         /\ exists m, error s = Some m
                      /\ final_report s = Some (error_report m)
                      /\ (error inputs <> Some "" -> is_set (error s)))
        \/ (should_evaluate_task_1_or_2 inputs <> handle_error
            /\ synthesized llm s)).
Proof.
  intros Hmax Htext.
  destruct (should_evaluate_task_1_or_2 inputs) eqn:Hroute.
  1, 2: unfold run; rewrite Hroute;
    match goal with
    | |- context [run_from _ _ _ _ ?n _ _] =>
        destruct (run_from_entry_stage llm MAX_RETRIES keys n inputs tr
                    Hmax eq_refl) as (s & tr' & Hrun & Hs)
    end;
    exists s, tr'; split; [exact Hrun |];
    split; [now apply (synthesized_report_set llm) |];
    right; split; [discriminate | exact Hs].
  1, 2, 3, 4: exfalso; rewrite router_cases in Hroute; cbv zeta in Hroute;
    repeat match type of Hroute with
           | (if ?c then _ else _) = _ => destruct c
           end; discriminate.
  rewrite (run_handle_error _ _ _ _ _ Hroute).
  eexists _, _. split; [reflexivity |].
  split; [reflexivity |].
  left. split; [reflexivity |].
  exists (get_or (error inputs) unknown_error_message).
  split; [reflexivity | split; [reflexivity |]].
  intros Hne. unfold is_set, handle_error_node. simpl.
  destruct (error inputs) as [[| c m] |]; [congruence | reflexivity ..].
Qed.

Lemma run_ends_with_report_witness :
  exists s tr',
    run (constant_llm band_only "Your band score is 6.0") 3 band_keys
        (graph_inputs "Academic Task 2" "" sample_essay []) []
    = (inr s, tr')
    /\ is_set (final_report s)
    /\ ((should_evaluate_task_1_or_2
           (graph_inputs "Academic Task 2" "" sample_essay []) = handle_error
         /\ exists m, error s = Some m
                      /\ final_report s = Some (error_report m)
                      /\ (error (graph_inputs "Academic Task 2" "" sample_essay [])
                            <> Some ""
                          -> is_set (error s)))
        \/ (should_evaluate_task_1_or_2
              (graph_inputs "Academic Task 2" "" sample_essay []) <> handle_error
            /\ synthesized (constant_llm band_only "Your band score is 6.0") s)).
Proof.
  apply (run_ends_with_report
           (constant_llm band_only "Your band score is 6.0") 3 band_keys
           (graph_inputs "Academic Task 2" "" sample_essay []) []).
  - lia.
  - intros n p r H. simpl in H. injection H as <-. discriminate.
Defined.

(** ** Sanitisation *)

Lemma string_app_cons (x : ascii) (a b : string) :
  String x a +:+ b = String x (a +:+ b).
Proof. reflexivity. Qed.

Lemma string_app_nil_l (a : string) : "" +:+ a = a.
Proof. reflexivity. Qed.

Lemma string_app_assoc (a b c : string) : (a +:+ b) +:+ c = a +:+ (b +:+ c).
Proof.
  induction a as [| x a IH]; [reflexivity |].
  rewrite !string_app_cons. now rewrite IH.
Qed.

Lemma string_app_nil_r (a : string) : a +:+ "" = a.
Proof.
  induction a as [| x a IH]; [reflexivity |].
  rewrite string_app_cons. now rewrite IH.
Qed.

Lemma join_cons (sep w : string) (ws : list string) :
  ws <> [] -> PyStr.join sep (w :: ws) = w +:+ sep +:+ PyStr.join sep ws.
Proof. destruct ws; [done | reflexivity]. Qed.

Lemma split_aux_nonempty (s cur : string) :
  cur <> "" -> PyStr.split_aux cur s <> [].
Proof.
  revert cur. induction s as [| c t IH]; intros cur Hcur; simpl.
  - destruct cur; [done | discriminate].
  - destruct (PyStr.is_space c).
    + destruct cur; [done | discriminate].
    + apply IH. destruct cur; discriminate.
Qed.

Lemma split_aux_leading (s : string) :
  s <> "" -> no_leading_ws s = true -> PyStr.split_aux "" s <> [].
Proof.
  destruct s as [| c t]; [done |]. simpl. intros _ Hc.
  apply negb_true_iff in Hc. rewrite Hc.
  apply split_aux_nonempty. discriminate.
Qed.

Lemma no_consecutive_ws_cons (c : ascii) (t : string) :
  no_consecutive_ws (String c t)
  = negb (PyStr.is_space c && negb (no_leading_ws t)) && no_consecutive_ws t.
Proof. reflexivity. Qed.

Lemma plain_spaces_cons (c : ascii) (t : string) :
  plain_spaces (String c t)
  = (negb (PyStr.is_space c) || (c =? " ")%char) && plain_spaces t.
Proof. reflexivity. Qed.

Lemma no_trailing_ws_cons (c : ascii) (t : string) :
  t <> "" -> no_trailing_ws (String c t) = no_trailing_ws t.
Proof. destruct t; [done | reflexivity]. Qed.

(** A text in collapsed form is rebuilt from its words. *)
Lemma join_split_aux_collapsed (s : string) :
  forall cur,
    (cur = "" -> no_leading_ws s = true) ->
    no_consecutive_ws s = true ->
    no_trailing_ws s = true ->
    plain_spaces s = true ->
    PyStr.join " " (PyStr.split_aux cur s) = cur +:+ s.
Proof.
  induction s as [| c t IH]; intros cur Hlead Hcons Htrail Hplain.
  - simpl. destruct cur; [reflexivity | now rewrite string_app_nil_r].
  - rewrite no_consecutive_ws_cons in Hcons.
    rewrite plain_spaces_cons in Hplain.
    apply andb_true_iff in Hcons as [Hadj Hcons].
    apply andb_true_iff in Hplain as [Hc Hplain].
    simpl PyStr.split_aux.
    destruct (PyStr.is_space c) eqn:Ec.
    + (* a separator: the word read so far is complete *)
      assert (Ht : t <> "").
      { intros ->. simpl in Htrail. rewrite Ec in Htrail. discriminate. }
      assert (Hlt : no_leading_ws t = true).
      { simpl in Hadj. now apply negb_true_iff, negb_false_iff in Hadj. }
      rewrite no_trailing_ws_cons in Htrail by exact Ht.
      destruct cur as [| x cur].
      { specialize (Hlead eq_refl). simpl in Hlead. rewrite Ec in Hlead.
        discriminate. }
      simpl in Hc. apply Ascii.eqb_eq in Hc. subst c.
      rewrite join_cons by now apply split_aux_leading.
      rewrite (IH "") by auto. reflexivity.
    + (* one more character of the current word *)
      rewrite IH.
      * rewrite string_app_assoc. reflexivity.
      * intros E. destruct cur; discriminate.
      * exact Hcons.
      * destruct t; [reflexivity |].
        now rewrite no_trailing_ws_cons in Htrail.
      * exact Hplain.
Qed.

(** The words of a text, joined by single spaces, are in collapsed form. *)

Lemma all_chars_app P (a b : string) :
  all_chars P (a +:+ b) = all_chars P a && all_chars P b.
Proof.
  induction a as [| x a IH]; [reflexivity |].
  rewrite string_app_cons. simpl. now rewrite IH, andb_assoc.
Qed.

Lemma split_aux_words (s : string) :
  forall cur,
    all_chars non_space cur = true ->
    Forall (fun w => is_word w = true) (PyStr.split_aux cur s).
Proof.
  induction s as [| c t IH]; intros cur Hcur; simpl.
  - destruct cur as [| x cur]; [constructor |].
    constructor; [exact Hcur | constructor].
  - destruct (PyStr.is_space c) eqn:Ec.
    + destruct cur as [| x cur]; [now apply IH |].
      constructor; [exact Hcur | now apply IH].
    + apply IH. rewrite all_chars_app, Hcur. simpl.
      unfold non_space. now rewrite Ec.
Qed.

Lemma no_consecutive_ws_word_app (w s : string) :
  all_chars non_space w = true ->
  no_consecutive_ws (w +:+ s) = no_consecutive_ws s.
Proof.
  induction w as [| x w IH]; [reflexivity |]. intros Hw. simpl in Hw.
  apply andb_true_iff in Hw as [Hx Hw]. unfold non_space in Hx.
  apply negb_true_iff in Hx.
  rewrite string_app_cons, no_consecutive_ws_cons, Hx. simpl. now apply IH.
Qed.

Lemma plain_spaces_word_app (w s : string) :
  all_chars non_space w = true ->
  plain_spaces (w +:+ s) = plain_spaces s.
Proof.
  induction w as [| x w IH]; [reflexivity |]. intros Hw. simpl in Hw.
  apply andb_true_iff in Hw as [Hx Hw]. unfold non_space in Hx.
  rewrite string_app_cons, plain_spaces_cons, Hx. simpl. now apply IH.
Qed.

Lemma string_app_nonempty_r (w s : string) : s <> "" -> w +:+ s <> "".
Proof. destruct w; [done | discriminate]. Qed.

Lemma no_trailing_ws_word_app (w s : string) :
  s <> "" -> no_trailing_ws (w +:+ s) = no_trailing_ws s.
Proof.
  intros Hs. induction w as [| x w IH]; [reflexivity |].
  rewrite string_app_cons, no_trailing_ws_cons; [exact IH |].
  now apply string_app_nonempty_r.
Qed.

Lemma no_trailing_ws_word (w : string) :
  all_chars non_space w = true -> no_trailing_ws w = true.
Proof.
  induction w as [| x w IH]; [reflexivity |]. intros Hw. simpl in Hw.
  apply andb_true_iff in Hw as [Hx Hw].
  destruct w; [exact Hx | now apply IH].
Qed.

Lemma no_leading_ws_word_app (w s : string) :
  is_word w = true -> no_leading_ws (w +:+ s) = true.
Proof.
  unfold is_word. destruct w as [| x w]; [discriminate |].
  intros Hw. simpl in Hw. now apply andb_true_iff in Hw as [Hx _].
Qed.

Lemma collapsed_word (w : string) : is_word w = true -> collapsed w.
Proof.
  intros Hw. pose proof Hw as Hw'. unfold is_word in Hw'.
  apply andb_true_iff in Hw' as [_ Hns].
  rewrite <- (string_app_nil_r w). repeat split.
  - now apply no_leading_ws_word_app.
  - now rewrite no_consecutive_ws_word_app.
  - rewrite string_app_nil_r. now apply no_trailing_ws_word.
  - now rewrite plain_spaces_word_app.
Qed.

Lemma collapsed_word_space (w rest : string) :
  is_word w = true -> rest <> "" -> collapsed rest ->
  collapsed (w +:+ " " +:+ rest).
Proof.
  intros Hw Hne (Hl & Hc & Ht & Hp). pose proof Hw as Hw'.
  unfold is_word in Hw'. apply andb_true_iff in Hw' as [_ Hns].
  repeat split.
  - now apply no_leading_ws_word_app.
  - rewrite no_consecutive_ws_word_app by exact Hns.
    change (" " +:+ rest) with (String " " rest).
    rewrite no_consecutive_ws_cons, Hl, Hc. reflexivity.
  - rewrite no_trailing_ws_word_app by discriminate.
    change (" " +:+ rest) with (String " " rest).
    now rewrite no_trailing_ws_cons.
  - rewrite plain_spaces_word_app by exact Hns.
    change (" " +:+ rest) with (String " " rest).
    now rewrite plain_spaces_cons, Hp.
Qed.

Lemma join_words_collapsed (ws : list string) :
  Forall (fun w => is_word w = true) ws ->
  collapsed (PyStr.join " " ws) /\ (ws <> [] -> PyStr.join " " ws <> "").
Proof.
  induction 1 as [| w ws Hw Hws [IHc IHn]].
  - split; [repeat split | done].
  - destruct ws as [| w' ws'].
    + simpl. split; [now apply collapsed_word |].
      intros _. unfold is_word in Hw. now destruct w.
    + rewrite join_cons by discriminate. split.
      * apply collapsed_word_space; [exact Hw | now apply IHn | exact IHc].
      * intros _. unfold is_word in Hw. now destruct w.
Qed.

Lemma collapse_is_collapsed (t : string) :
  collapsed (PyStr.join " " (PyStr.split t)).
Proof.
  apply join_words_collapsed, split_aux_words. reflexivity.
Qed.

Lemma collapse_fixes_collapsed (s : string) :
  collapsed s -> PyStr.join " " (PyStr.split s) = s.
Proof.
  intros (Hl & Hc & Ht & Hp). unfold PyStr.split.
  now rewrite join_split_aux_collapsed.
Qed.

Lemma length_take (n : nat) (s : string) :
  (n <= String.length s)%nat -> String.length (PyStr.take n s) = n.
Proof.
  revert s. induction n as [| n IH]; intros s Hn; [reflexivity |].
  destruct s as [| c t]; simpl in *; [lia |].
  rewrite IH; [reflexivity | lia].
Qed.

Lemma sanitize_text_unfold (t : string) :
  sanitize_text t
  = let c := PyStr.join " " (PyStr.split t) in
    if PyStr.len c >? 15000
    then PyStr.slice_to 15000 c +:+ truncation_marker
    else c.
Proof. destruct t; reflexivity. Qed.

Lemma sanitize_text_short (t : string) :
  PyStr.len (PyStr.join " " (PyStr.split t)) <= 15000 ->
  sanitize_text t = PyStr.join " " (PyStr.split t).
Proof.
  intros Hlen. rewrite sanitize_text_unfold. cbv zeta.
  destruct (Z.gtb_spec (PyStr.len (PyStr.join " " (PyStr.split t))) 15000);
    [lia | reflexivity].
Qed.

(** C8, the claim as stated fails: a text with one tab between two words
    has no adjacent, leading or trailing whitespace and is short, yet
    sanitisation changes it (the tab becomes a space). *)
Lemma single_tab_is_replaced :
  no_consecutive_ws tabbed = true
  /\ no_leading_ws tabbed = true
  /\ no_trailing_ws tabbed = true
  /\ PyStr.len tabbed <= 15000
  /\ sanitize_text tabbed = "a b"
  /\ sanitize_text tabbed <> tabbed.
Proof.
  repeat split; try reflexivity.
  - vm_compute. discriminate.
  - vm_compute. discriminate.
Qed.

(** C8, amended: sanitisation joins the words of the text by single
    spaces, so that the result has no leading, trailing or adjacent
    whitespace and no whitespace character other than the space; a
    collapsed text of more than 15,000 characters is cut to its first
    15,000 characters and the truncation marker is appended.  A text of
    at most 15,000 characters that is already in that form, all its
    whitespace being single space characters, is returned unchanged, and
    sanitising twice equals sanitising once whenever the collapsed text
    has at most 15,000 characters. *)
Theorem sanitize_text_collapses :
  (forall t,
      let c := PyStr.join " " (PyStr.split t) in
      collapsed c
      /\ sanitize_text t
         = (if PyStr.len c >? 15000
            then PyStr.slice_to 15000 c +:+ truncation_marker
            else c)
      /\ (PyStr.len c > 15000 -> PyStr.len (PyStr.slice_to 15000 c) = 15000))
  /\ (forall s,
        collapsed s -> PyStr.len s <= 15000 -> sanitize_text s = s)
  /\ (forall t,
        PyStr.len (PyStr.join " " (PyStr.split t)) <= 15000 ->
        sanitize_text (sanitize_text t) = sanitize_text t).
Proof.
  split; [| split].
  - intros t c. split; [apply collapse_is_collapsed |].
    split; [apply sanitize_text_unfold |].
    intros Hlen. unfold PyStr.len, PyStr.slice_to in *.
    rewrite length_take; lia.
  - intros s Hs Hlen.
    rewrite sanitize_text_short; rewrite (collapse_fixes_collapsed s Hs);
      [reflexivity | exact Hlen].
  - intros t Hlen.
    rewrite (sanitize_text_short t Hlen).
    pose proof (collapse_is_collapsed t) as Hc.
    rewrite sanitize_text_short;
      rewrite (collapse_fixes_collapsed _ Hc); [reflexivity | exact Hlen].
Qed.

Lemma sanitize_text_collapses_witness :
  collapsed "Some people think that cities grow."
  /\ sanitize_text "Some people think that cities grow."
     = "Some people think that cities grow."
  /\ sanitize_text (sanitize_text sample_essay) = sanitize_text sample_essay.
Proof.
  assert (Hc : collapsed "Some people think that cities grow.")
    by (repeat split; reflexivity).
  split; [exact Hc | split].
  - apply (proj1 (proj2 sanitize_text_collapses)); [exact Hc |].
    vm_compute. discriminate.
  - apply (proj2 (proj2 sanitize_text_collapses)).
    vm_compute. discriminate.
Defined.

(** * Further properties of the graph *)

(** ** What an evaluator can return *)

Lemma evaluator_loop_step llm MAX_RETRIES criterion keys state params
    (a : Z) (rest : list Z) tr :
  evaluator_loop llm MAX_RETRIES criterion keys state params (a :: rest) tr
  = match json_chain llm (call_count tr) params with
    | inr v =>
        if validate_json_output v keys then
          (inr (Some (evaluations_update
                        (<[criterion := v]> (get_or (evaluations state) ∅)))),
           tr ++ [LLMJsonCall params])
        else if a =? MAX_RETRIES - 1 then
          (inl (ValueError "LLM returned invalid output format"),
           tr ++ [LLMJsonCall params])
        else
          evaluator_loop llm MAX_RETRIES criterion keys state params rest
            ((tr ++ [LLMJsonCall params]) ++ [Sleep (2 ^ a)])
    | inl e =>
        if a =? MAX_RETRIES - 1 then (inl e, tr ++ [LLMJsonCall params])
        else
          evaluator_loop llm MAX_RETRIES criterion keys state params rest
            ((tr ++ [LLMJsonCall params]) ++ [Sleep (2 ^ a)])
    end.
Proof.
  cbn [evaluator_loop]. unfold mbind at 1, eff_bind at 1.
  destruct (json_chain llm (call_count tr) params) as [e | v] eqn:E.
  - rewrite evaluator_attempt_rejected by (rewrite E; reflexivity).
    rewrite E. simpl failure_exn.
    destruct (a =? MAX_RETRIES - 1); reflexivity.
  - destruct (validate_json_output v keys) eqn:Hv.
    + now rewrite (evaluator_attempt_accepted _ _ _ _ _ _ _ _ v E Hv).
    + rewrite evaluator_attempt_rejected by (rewrite E; simpl; now rewrite Hv).
      rewrite E. simpl failure_exn.
      destruct (a =? MAX_RETRIES - 1); reflexivity.
Qed.

Lemma text_call_count_app (tr1 tr2 : list event) :
  text_call_count (tr1 ++ tr2)
  = (text_call_count tr1 + text_call_count tr2)%nat.
Proof. unfold text_call_count. now rewrite filter_app, length_app. Qed.

Lemma text_call_count_json tr p :
  text_call_count (tr ++ [LLMJsonCall p]) = text_call_count tr.
Proof. rewrite text_call_count_app. unfold text_call_count at 2. simpl. lia. Qed.

Lemma text_call_count_sleep tr z :
  text_call_count (tr ++ [Sleep z]) = text_call_count tr.
Proof. rewrite text_call_count_app. unfold text_call_count at 2. simpl. lia. Qed.

(** A loop whose last attempt is [MAX_RETRIES - 1] either returns an
    answer that passed validation or raises the failure of a rejected
    answer; it records no synthesis call. *)
Lemma evaluator_loop_outcome llm MAX_RETRIES criterion keys state params
    (earlier : list Z) :
  Forall (fun a => a <> MAX_RETRIES - 1) earlier ->
  forall tr, exists tr',
    text_call_count tr' = text_call_count tr
    /\ ((exists n v,
            json_chain llm n params = inr v
            /\ validate_json_output v keys = true
            /\ evaluator_loop llm MAX_RETRIES criterion keys state params
                              (earlier ++ [MAX_RETRIES - 1]) tr
               = (inr (Some (evaluations_update
                               (<[criterion := v]>
                                  (get_or (evaluations state) ∅)))),
                  tr'))
        \/ (exists n,
              rejected keys (json_chain llm n params) = true
              /\ evaluator_loop llm MAX_RETRIES criterion keys state params
                                (earlier ++ [MAX_RETRIES - 1]) tr
                 = (inl (failure_exn (json_chain llm n params)), tr'))).
Proof.
  induction earlier as [| a rest IH]; intros Hne tr.
  - change ([] ++ [MAX_RETRIES - 1]) with [MAX_RETRIES - 1].
    rewrite evaluator_loop_step, Z.eqb_refl.
    exists (tr ++ [LLMJsonCall params]).
    split; [apply text_call_count_json |].
    destruct (json_chain llm (call_count tr) params) as [e | v] eqn:E.
    + right. exists (call_count tr). rewrite E. split; reflexivity.
    + destruct (validate_json_output v keys) eqn:Hv.
      * left. exists (call_count tr), v. auto.
      * right. exists (call_count tr). rewrite E. simpl. rewrite Hv.
        split; reflexivity.
  - inversion Hne as [| ? ? Ha Hrest]; subst.
    change ((a :: rest) ++ [MAX_RETRIES - 1])
      with (a :: (rest ++ [MAX_RETRIES - 1])).
    rewrite evaluator_loop_step.
    apply Z.eqb_neq in Ha. rewrite Ha.
    destruct (IH Hrest ((tr ++ [LLMJsonCall params]) ++ [Sleep (2 ^ a)]))
      as (tr' & Hcount & Hcase).
    rewrite text_call_count_sleep, text_call_count_json in Hcount.
    destruct (json_chain llm (call_count tr) params) as [e | v] eqn:E.
    + exists tr'. split; [exact Hcount | exact Hcase].
    + destruct (validate_json_output v keys) eqn:Hv.
      * exists (tr ++ [LLMJsonCall params]).
        split; [apply text_call_count_json |].
        left. exists (call_count tr), v. auto.
      * exists tr'. split; [exact Hcount | exact Hcase].
Qed.

(** The three ways an evaluator node ends. *)
Lemma evaluator_node_outcome llm MAX_RETRIES criterion keys
    (state : GraphState) tr :
  exists result tr',
    evaluator_node llm MAX_RETRIES criterion keys state tr = (inr result, tr')
    /\ text_call_count tr' = text_call_count tr
    /\ match result with
       | None => MAX_RETRIES <= 0 /\ tr' = tr
       | Some update =>
           (exists n p v,
               json_chain llm n p = inr v
               /\ validate_json_output v keys = true
               /\ update = evaluations_update
                             (<[criterion := v]> (get_or (evaluations state) ∅)))
           \/ (exists msg,
                 update = error_update
                            ("Failed during " +:+ criterion +:+ " evaluation: "
                             +:+ msg))
       end.
Proof.
  unfold evaluator_node, try_except.
  destruct (get_truthy (essay_text state)) eqn:He.
  2: { eexists _, _. split; [reflexivity |]. split; [reflexivity |].
       right. eexists. reflexivity. }
  change (negb true) with false. cbv iota.
  destruct (Z_le_gt_dec MAX_RETRIES 0) as [Hle | Hgt].
  - unfold range. replace (Z.to_nat MAX_RETRIES) with 0%nat by lia.
    eexists _, _. split; [reflexivity |]. split; [reflexivity |]. auto.
  - rewrite (range_last MAX_RETRIES) by lia.
    destruct (evaluator_loop_outcome llm MAX_RETRIES criterion keys state
                (evaluator_params criterion state
                   (sanitize_text (get_or (essay_text state) "")))
                (range (MAX_RETRIES - 1)) (range_below _) tr)
      as (tr' & Hcount & [(n & v & Hout & Hv & ->) | (n & Hrej & ->)]).
    + eexists _, _. split; [reflexivity |]. split; [exact Hcount |].
      left. eexists n, _, v. split; [exact Hout |]. split; [exact Hv |].
      reflexivity.
    + eexists _, _. split; [reflexivity |]. split; [exact Hcount |].
      right. eexists. reflexivity.
Qed.

(** X1: an evaluator node never raises and never records a synthesis
    call.  Its update, if any, has no [final_report]; when it carries
    [evaluations], the criterion is mapped to an answer of the
    collaborator that has every required key, every other criterion is as
    it was, and no error is set; when it carries an error, the message is
    scoped to the criterion and no evaluation is stored. *)
Theorem evaluator_node_update_shape llm MAX_RETRIES criterion keys
    (state : GraphState) tr :
  exists result tr',
    evaluator_node llm MAX_RETRIES criterion keys state tr = (inr result, tr')
    /\ text_call_count tr' = text_call_count tr
    /\ forall update, result = Some update ->
         final_report update = None
         /\ (forall evs : gmap string py_value,
                evaluations update = Some evs ->
                error update = None
                /\ (exists v n p,
                       evs !! criterion = Some v
                       /\ json_chain llm n p = inr v
                       /\ validate_json_output v keys = true)
                /\ forall other, other <> criterion ->
                     evs !! other = get_or (evaluations state) ∅ !! other)
         /\ (forall msg,
                error update = Some msg ->
                evaluations update = None
                /\ exists detail,
                     msg = "Failed during " +:+ criterion +:+ " evaluation: "
                           +:+ detail).
Proof.
  destruct (evaluator_node_outcome llm MAX_RETRIES criterion keys state tr)
    as (result & tr' & Hrun & Hcount & Hshape).
  exists result, tr'. split; [exact Hrun |]. split; [exact Hcount |].
  intros update ->.
  destruct Hshape as [(n & p & v & Hout & Hv & ->) | (msg & ->)]; simpl.
  - split; [reflexivity |]. split.
    + intros evs [= <-]. split; [reflexivity |]. split.
      * exists v, n, p. rewrite lookup_insert_eq. auto.
      * intros other Hne. now rewrite lookup_insert_ne.
    + intros msg [=].
  - split; [reflexivity |]. split.
    + intros evs [=].
    + intros m [= <-]. split; [reflexivity |]. eauto.
Qed.

(** ** The executor reaches the end *)

#[global] Instance node_name_eq_dec : EqDecision node_name.
Proof. solve_decision. Defined.

Lemma node_function_stage llm MAX_RETRIES keys n criterion file :
  stage_of n = Some (criterion, file) ->
  node_function llm MAX_RETRIES keys n
  = evaluator_node llm MAX_RETRIES criterion (keys file).
Proof. destruct n; intros [= <- <-]; reflexivity. Qed.

Lemma run_from_returns llm MAX_RETRIES keys (steps : nat) :
  forall n state tr,
    (length (path_from steps n) < steps)%nat ->
    exists s tr', run_from llm MAX_RETRIES keys steps n state tr = (inr s, tr').
Proof.
  induction steps as [| k IH]; intros n state tr Hlen; [simpl in Hlen; lia |].
  rewrite run_from_step.
  destruct (node_function_returns llm MAX_RETRIES keys n state tr)
    as (u & tr' & ->).
  simpl in Hlen. destruct (next_node n) as [n' |]; [| eauto].
  apply IH. lia.
Qed.

Lemma path_from_short (n : node_name) :
  (length (path_from recursion_limit n) <= 5)%nat.
Proof. destruct n; vm_compute; lia. Qed.

(** X2: whatever the collaborator answers, whatever [MAX_RETRIES] is and
    whatever the input dictionary holds, a run of the graph returns a
    state: no node raises and the step limit of the executor is never
    reached. *)
Theorem run_always_returns llm MAX_RETRIES keys (inputs : GraphState) tr :
  exists s tr', run llm MAX_RETRIES keys inputs tr = (inr s, tr').
Proof.
  unfold run. apply run_from_returns.
  pose proof (path_from_short (should_evaluate_task_1_or_2 inputs)).
  unfold recursion_limit in *. lia.
Qed.

(** X3: from every node the edges of the graph lead to [END] within five
    nodes without visiting a node twice; the walk from an evaluator ends
    at the synthesizer and never enters the error node. *)
Theorem graph_paths_are_acyclic (n : node_name) :
  NoDup (path_from recursion_limit n)
  /\ (length (path_from recursion_limit n) <= 5)%nat
  /\ (exists before last,
         path_from recursion_limit n = before ++ [last]
         /\ next_node last = None)
  /\ (n <> handle_error ->
      (handle_error ∉ path_from recursion_limit n)
      /\ (synthesizer ∈ path_from recursion_limit n)).
Proof.
  split; [| split; [apply path_from_short | split]].
  - destruct n; apply (bool_decide_unpack _); vm_compute; exact I.
  - destruct n; vm_compute;
      repeat match goal with
             | |- exists before last, ?l = _ /\ _ =>
                 exists (removelast l), (List.last l handle_error)
             end; split; reflexivity.
  - intros Hn. split.
    + destruct n; try (apply (bool_decide_unpack _); vm_compute; exact I).
      now destruct Hn.
    + destruct n; try (apply (bool_decide_unpack _); vm_compute; exact I).
      now destruct Hn.
Qed.

(** ** An error message, once set, decides the report *)

Lemma synthesizer_node_short_circuit llm MAX_RETRIES (state : GraphState) tr :
  is_set (error state) ->
  synthesizer_node llm MAX_RETRIES state tr
  = (inr (Some (report_update generic_error_report (error state))), tr).
Proof.
  unfold is_set, synthesizer_node, try_except. now intros ->.
Qed.

(** Every attempt of the loop starts with a call: the trace of a loop
    grows at its end, and a loop with an attempt to make records its
    call first. *)
Lemma evaluator_loop_extends llm MAX_RETRIES criterion keys state params
    (attempts : list Z) :
  forall tr, exists r ext,
    evaluator_loop llm MAX_RETRIES criterion keys state params attempts tr
    = (r, tr ++ ext)
    /\ (attempts <> [] -> exists ext', ext = LLMJsonCall params :: ext').
Proof.
  induction attempts as [| a rest IH]; intros tr.
  - exists (inr None), []. split; [now rewrite app_nil_r | done].
  - rewrite evaluator_loop_step.
    destruct (IH ((tr ++ [LLMJsonCall params]) ++ [Sleep (2 ^ a)]))
      as (r & ext & Hr & _).
    assert (Hrec :
      evaluator_loop llm MAX_RETRIES criterion keys state params rest
        ((tr ++ [LLMJsonCall params]) ++ [Sleep (2 ^ a)])
      = (r, tr ++ LLMJsonCall params :: Sleep (2 ^ a) :: ext)).
    { rewrite Hr. f_equal. rewrite <- !app_assoc. reflexivity. }
    destruct (json_chain llm (call_count tr) params) as [e | v];
      [| destruct (validate_json_output v keys)];
      try destruct (a =? MAX_RETRIES - 1);
      first [ eexists _, _; split; [exact Hrec | intros _; eexists; reflexivity]
            | eexists _, [LLMJsonCall params];
              split; [reflexivity | intros _; eexists; reflexivity] ].
Qed.

(** An evaluator node that gets past its guard calls the collaborator for
    its own criterion before anything else. *)
Lemma evaluator_node_extends llm MAX_RETRIES criterion keys
    (state : GraphState) tr :
  exists result ext,
    evaluator_node llm MAX_RETRIES criterion keys state tr
    = (inr result, tr ++ ext)
    /\ (1 <= MAX_RETRIES ->
        get_truthy (essay_text state) = true ->
        exists p ext', ext = LLMJsonCall p :: ext' /\ ip_criterion p = criterion).
Proof.
  unfold evaluator_node, try_except.
  destruct (get_truthy (essay_text state)) eqn:He.
  - change (negb true) with false. cbv iota.
    destruct (evaluator_loop_extends llm MAX_RETRIES criterion keys state
                (evaluator_params criterion state
                   (sanitize_text (get_or (essay_text state) "")))
                (range MAX_RETRIES) tr) as (r & ext & -> & Hfirst).
    destruct r as [e | result]; eexists _, ext;
      (split; [reflexivity |]); intros Hmax _;
      (destruct Hfirst as [ext' ->];
       [destruct (range_first _ Hmax) as [rest ->]; discriminate |]);
      eexists _, ext'; split; reflexivity.
  - eexists _, []. split; [now rewrite app_nil_r | discriminate].
Qed.

Lemma stage_keeps_error llm MAX_RETRIES keys n criterion file
    (state : GraphState) tr :
  stage_of n = Some (criterion, file) ->
  is_set (error state) ->
  exists update ext,
    node_function llm MAX_RETRIES keys n state tr = (inr update, tr ++ ext)
    /\ text_call_count ext = 0%nat
    /\ is_set (error (match update with
                      | Some u => merge state u
                      | None => state
                      end))
    /\ essay_text (match update with
                   | Some u => merge state u
                   | None => state
                   end) = essay_text state
    /\ (1 <= MAX_RETRIES ->
        get_truthy (essay_text state) = true ->
        exists p, In (LLMJsonCall p) ext /\ ip_criterion p = criterion).
Proof.
  intros Hstage Herr. rewrite (node_function_stage _ _ _ _ _ _ Hstage).
  destruct (evaluator_node_outcome llm MAX_RETRIES criterion (keys file)
              state tr) as (result & tr' & Hrun & Hcount & Hshape).
  destruct (evaluator_node_extends llm MAX_RETRIES criterion (keys file)
              state tr) as (result' & ext & Hrun' & Hcall).
  rewrite Hrun in Hrun'. injection Hrun' as <- ->.
  exists result, ext. split; [exact Hrun |].
  split; [rewrite text_call_count_app in Hcount; lia |].
  split; [| split].
  - destruct result as [update |]; [| exact Herr].
    destruct Hshape as [(k & p & v & _ & _ & ->) | (msg & ->)].
    + simpl. exact Herr.
    + reflexivity.
  - destruct result as [update |]; [| reflexivity].
    destruct Hshape as [(k & p & v & _ & _ & ->) | (msg & ->)]; reflexivity.
  - intros Hmax Hessay.
    destruct (Hcall Hmax Hessay) as (p & ext' & -> & Hp).
    exists p. split; [now left | exact Hp].
Qed.

Lemma next_node_not_error (n n' : node_name) :
  next_node n = Some n' -> n' <> handle_error.
Proof. destruct n; intros [= <-]; discriminate. Qed.

Lemma stage_of_next (n n' : node_name) :
  next_node n = Some n' -> exists criterion file, stage_of n = Some (criterion, file).
Proof. destruct n; intros [=]; simpl; eauto. Qed.

Lemma run_from_with_error llm MAX_RETRIES keys (steps : nat) :
  forall n (state : GraphState) tr,
    n <> handle_error ->
    is_set (error state) ->
    (length (path_from steps n) < steps)%nat ->
    exists s ext,
      run_from llm MAX_RETRIES keys steps n state tr = (inr s, tr ++ ext)
      /\ final_report s = Some generic_error_report
      /\ is_set (error s)
      /\ text_call_count ext = 0%nat
      /\ (1 <= MAX_RETRIES ->
          get_truthy (essay_text state) = true ->
          forall n' criterion file,
            In n' (path_from steps n) ->
            stage_of n' = Some (criterion, file) ->
            exists p, In (LLMJsonCall p) ext /\ ip_criterion p = criterion).
Proof.
  induction steps as [| k IH]; intros n state tr Hn Herr Hlen;
    [simpl in Hlen; lia |].
  rewrite run_from_step. simpl in Hlen. cbn [path_from].
  destruct (next_node n) as [n' |] eqn:Hnext.
  - destruct (stage_of_next n n' Hnext) as (criterion & file & Hstage).
    destruct (stage_keeps_error llm MAX_RETRIES keys n criterion file state tr
                Hstage Herr) as (u & ext1 & -> & Hcount & Herr' & Hessay' & Hcall).
    cbv zeta.
    destruct (IH n' _ (tr ++ ext1) (next_node_not_error _ _ Hnext) Herr')
      as (s & ext2 & Hrun & Hrep & Hs & Hc & Hcalls); [lia |].
    exists s, (ext1 ++ ext2).
    split; [rewrite Hrun, app_assoc; reflexivity |].
    split; [exact Hrep |]. split; [exact Hs |].
    split; [rewrite text_call_count_app; lia |].
    intros Hmax Hessay n'' criterion' file' [<- | Hin] Hstage'.
    + rewrite Hstage in Hstage'. injection Hstage' as <- <-.
      destruct (Hcall Hmax Hessay) as (p & Hp & Hcrit).
      exists p. split; [apply in_or_app; now left | exact Hcrit].
    + rewrite <- Hessay' in Hessay.
      destruct (Hcalls Hmax Hessay n'' criterion' file' Hin Hstage')
        as (p & Hp & Hcrit).
      exists p. split; [apply in_or_app; now right | exact Hcrit].
  - assert (n = synthesizer) as -> by (destruct n; try discriminate; congruence).
    cbn [node_function]. rewrite synthesizer_node_short_circuit by exact Herr.
    exists (merge state (report_update generic_error_report (error state))), [].
    split; [now rewrite app_nil_r |].
    split; [reflexivity |]. split; [| split; [reflexivity |]].
    + unfold is_set in *. simpl. now destruct (error state).
    + intros _ _ n' criterion file [<- | []] Hstage. discriminate Hstage.
Qed.

Lemma path_from_at_most_five (steps : nat) (n : node_name) :
  (length (path_from steps n) <= 5)%nat.
Proof.
  destruct n;
    do 6 (destruct steps as [| steps]; [simpl; lia |]); simpl; lia.
Qed.

(** X4: when the executor enters an evaluator or the synthesizer with the
    error message set (by the caller or by an earlier evaluator) and at
    least six steps left (a run starts with 25), the remaining evaluators
    still run: the trace only grows, and with a non-empty essay and
    [MAX_RETRIES >= 1] every evaluator still on the way adds a call to
    the collaborator for its own criterion.  The run all the same ends
    with the generic error report and a set error message, and no
    synthesis call is made. *)
Theorem error_set_decides_report llm MAX_RETRIES keys (steps : nat)
    (n : node_name) (state : GraphState) tr :
  (6 <= steps)%nat ->
  n <> handle_error ->
  is_set (error state) ->
  exists s tr',
    run_from llm MAX_RETRIES keys steps n state tr = (inr s, tr')
    /\ final_report s = Some generic_error_report
    /\ is_set (error s)
    /\ text_call_count tr' = text_call_count tr
    /\ exists ext,
         tr' = tr ++ ext
         /\ (1 <= MAX_RETRIES ->
             get_truthy (essay_text state) = true ->
             forall n' criterion file,
               In n' (path_from steps n) ->
               stage_of n' = Some (criterion, file) ->
               exists p, In (LLMJsonCall p) ext /\ ip_criterion p = criterion).
Proof.
  intros Hsteps Hn Herr.
  destruct (run_from_with_error llm MAX_RETRIES keys steps n state tr Hn Herr)
    as (s & ext & Hrun & Hrep & Hs & Hcount & Hcalls).
  { pose proof (path_from_at_most_five steps n). lia. }
  exists s, (tr ++ ext). split; [exact Hrun |].
  split; [exact Hrep |]. split; [exact Hs |].
  split; [rewrite text_call_count_app; lia |].
  exists ext. split; [reflexivity | exact Hcalls].
Qed.

Lemma error_set_decides_report_witness :
  exists s tr',
    run_from (constant_llm band_only "Your band score is 6.0") 3 band_keys
        24 evaluate_coherence_cohesion
        (merge (graph_inputs "Academic Task 2" "" sample_essay [])
               (error_update "Failed during task_response evaluation: timeout"))
        []
    = (inr s, tr')
    /\ final_report s = Some generic_error_report
    /\ is_set (error s)
    /\ text_call_count tr' = text_call_count []
    /\ exists ext,
         tr' = [] ++ ext
         /\ (1 <= 3 ->
             get_truthy
               (essay_text
                  (merge (graph_inputs "Academic Task 2" "" sample_essay [])
                         (error_update
                            "Failed during task_response evaluation: timeout")))
             = true ->
             forall n' criterion file,
               In n' (path_from 24 evaluate_coherence_cohesion) ->
               stage_of n' = Some (criterion, file) ->
               exists p, In (LLMJsonCall p) ext /\ ip_criterion p = criterion).
Proof.
  apply (error_set_decides_report
           (constant_llm band_only "Your band score is 6.0") 3 band_keys
           24 evaluate_coherence_cohesion
           (merge (graph_inputs "Academic Task 2" "" sample_essay [])
                  (error_update "Failed during task_response evaluation: timeout"))
           []).
  - lia.
  - discriminate.
  - reflexivity.
Defined.

Example error_set_evaluators_still_called :
  let p c := {| ip_criterion := c;
                ip_essay := "Some people think that cities grow.";
                ip_word_count := 6; ip_previous_attempts := [];
                ip_visual_data := None;
                ip_comparison_instruction := Some "" |} in
  snd (run_from (constant_llm band_only "Your band score is 6.0") 3 band_keys
         24 evaluate_coherence_cohesion
         (merge (graph_inputs "Academic Task 2" "" sample_essay [])
                (error_update "Failed during task_response evaluation: timeout"))
         [])
  = [LLMJsonCall (p "coherence_cohesion"); LLMJsonCall (p "lexical_resource");
     LLMJsonCall (p "grammatical_range")].
Proof. vm_compute. reflexivity. Qed.

(** ** A run without an essay *)

Lemma evaluator_node_no_essay llm MAX_RETRIES criterion keys
    (state : GraphState) tr :
  get_truthy (essay_text state) = false ->
  evaluator_node llm MAX_RETRIES criterion keys state tr
  = (inr (Some (error_update ("Failed during " +:+ criterion
                              +:+ " evaluation: No essay text provided"))),
     tr).
Proof. intros He. unfold evaluator_node, try_except. now rewrite He. Qed.

Lemma router_not_error_cases (state : GraphState) :
  should_evaluate_task_1_or_2 state <> handle_error ->
  should_evaluate_task_1_or_2 state = evaluate_task_achievement_t1
  \/ should_evaluate_task_1_or_2 state = evaluate_task_response_t2.
Proof.
  rewrite router_cases. cbv zeta.
  repeat match goal with
         | |- context [if ?c then _ else _] => destruct c
         end; auto.
  intros H. now destruct H.
Qed.

(** X5: a run whose category is routed to an evaluator and whose essay
    text is empty or absent makes no call and no sleep.  Every evaluator
    on the way replaces the error message by its own, so the run ends
    with the generic error report and the validation error of the last
    evaluator (grammatical range); the stored evaluations are untouched. *)
Theorem run_without_essay llm MAX_RETRIES keys (inputs : GraphState) tr :
  should_evaluate_task_1_or_2 inputs <> handle_error ->
  get_truthy (essay_text inputs) = false ->
  run llm MAX_RETRIES keys inputs tr
  = (inr (merge inputs
            (report_update generic_error_report
               (Some "Failed during grammatical_range evaluation: No essay text provided"))),
     tr).
Proof.
  intros Hroute He. unfold run, recursion_limit.
  destruct (router_not_error_cases inputs Hroute) as [-> | ->];
    repeat (rewrite run_from_step; cbn [node_function next_node];
            unfold create_evaluator_node;
            rewrite evaluator_node_no_essay by exact He; cbv zeta);
    rewrite run_from_step; cbn [node_function next_node];
    rewrite synthesizer_node_short_circuit by reflexivity;
    reflexivity.
Qed.

Lemma run_without_essay_witness :
  run failing_llm 3 band_keys
      (graph_inputs "Academic Task 1" "A bar chart." "" []) []
  = (inr (merge (graph_inputs "Academic Task 1" "A bar chart." "" [])
            (report_update generic_error_report
               (Some "Failed during grammatical_range evaluation: No essay text provided"))),
     []).
Proof.
  apply (run_without_essay failing_llm 3 band_keys
           (graph_inputs "Academic Task 1" "A bar chart." "" []) []).
  - vm_compute. discriminate.
  - reflexivity.
Defined.

(** ** A run in which every answer is accepted *)

Lemma dict_is_empty_insert (d : gmap string py_value) k v :
  dict_is_empty (<[k := v]> d) = false.
Proof.
  unfold dict_is_empty. apply bool_decide_eq_false. apply insert_non_empty.
Qed.

Lemma synthesizer_node_first_answer llm MAX_RETRIES (state : GraphState) tr r :
  1 <= MAX_RETRIES ->
  get_truthy (error state) = false ->
  dict_is_empty (get_or (evaluations state) ∅) = false ->
  text_chain llm (call_count tr)
             (synthesizer_params state (get_or (evaluations state) ∅)) = inr r ->
  synthesizer_node llm MAX_RETRIES state tr
  = (inr (Some (report_update r None)),
     tr ++ [LLMTextCall (synthesizer_params state
                           (get_or (evaluations state) ∅))]).
Proof.
  intros Hmax Herr Hev Hr.
  destruct (range_first MAX_RETRIES Hmax) as [rest Hrange].
  unfold synthesizer_node, try_except. rewrite Herr, Hev, Hrange.
  now rewrite synthesizer_loop_step, Hr.
Qed.

Lemma stage_first_accepted llm MAX_RETRIES keys n criterion file
    (state : GraphState) tr :
  stage_of n = Some (criterion, file) ->
  1 <= MAX_RETRIES ->
  get_truthy (essay_text state) = true ->
  (forall k p, exists v,
      json_chain llm k p = inr v
      /\ forall f, validate_json_output v (keys f) = true) ->
  exists v,
    node_function llm MAX_RETRIES keys n state tr
    = (inr (Some (evaluations_update
                    (<[criterion := v]> (get_or (evaluations state) ∅)))),
       tr ++ [LLMJsonCall (evaluator_params criterion state
                             (sanitize_text (get_or (essay_text state) "")))]).
Proof.
  intros Hstage Hmax He Hok.
  rewrite (node_function_stage _ _ _ _ _ _ Hstage).
  destruct (Hok (call_count tr)
              (evaluator_params criterion state
                 (sanitize_text (get_or (essay_text state) ""))))
    as (v & Hv & Hval).
  exists v. now apply evaluator_node_first_accepted.
Qed.

Ltac accepted_stage Hmax He Hok :=
  rewrite run_from_step;
  match goal with
  | |- context [node_function ?llm ?m ?keys ?n ?state ?tr] =>
      let v := fresh "v" in
      let Hv := fresh "Hv" in
      destruct (stage_first_accepted llm m keys n _ _ state tr eq_refl
                  Hmax He Hok) as [v Hv];
      rewrite Hv; clear Hv; cbn [next_node]; cbv zeta
  end.

(** X6: in a run routed to an evaluator, with a non-empty essay, no error
    message, at least one attempt allowed, evaluator answers that all pass
    validation and a synthesis call that succeeds, exactly five calls are
    made (four evaluators, one synthesis) and no sleep; the final report
    is the text of the collaborator, the error message is left as it
    was, and the evaluations hold an entry for the three common criteria
    and for the task criterion. *)
Theorem run_all_accepted llm MAX_RETRIES keys (inputs : GraphState) tr :
  should_evaluate_task_1_or_2 inputs <> handle_error ->
  1 <= MAX_RETRIES ->
  get_truthy (essay_text inputs) = true ->
  get_truthy (error inputs) = false ->
  (forall k p, exists v,
      json_chain llm k p = inr v
      /\ forall f, validate_json_output v (keys f) = true) ->
  (forall k p, exists r, text_chain llm k p = inr r) ->
  exists s tr' r (evs : gmap string py_value),
    run llm MAX_RETRIES keys inputs tr = (inr s, tr ++ tr')
    /\ call_count tr' = 5%nat
    /\ text_call_count tr' = 1%nat
    /\ sleeps tr' = []
    /\ final_report s = Some r
    /\ (exists k p, text_chain llm k p = inr r)
    /\ error s = error inputs
    /\ evaluations s = Some evs
    /\ is_Some (evs !! "coherence_cohesion")
    /\ is_Some (evs !! "lexical_resource")
    /\ is_Some (evs !! "grammatical_range")
    /\ (is_Some (evs !! "task_achievement")
        \/ is_Some (evs !! "task_response")).
Proof.
  intros Hroute Hmax He Herr Hok Htext. unfold run, recursion_limit.
  destruct (router_not_error_cases inputs Hroute) as [-> | ->];
    do 4 (accepted_stage Hmax He Hok);
    rewrite run_from_step; cbn [node_function next_node];
    match goal with
    | |- context [synthesizer_node ?l ?m ?state ?t] =>
        destruct (Htext (call_count t)
                    (synthesizer_params state (get_or (evaluations state) ∅)))
          as [r Hr];
        rewrite (synthesizer_node_first_answer l m state t r Hmax Herr
                   (dict_is_empty_insert _ _ _) Hr)
    end;
    rewrite <- !app_assoc; cbn [app];
    eexists _, _, r, _;
    (split; [reflexivity |]);
    (split; [reflexivity |]);
    (split; [reflexivity |]);
    (split; [reflexivity |]);
    (split; [reflexivity |]);
    (split; [eauto |]);
    (split; [simpl; now destruct (error inputs) |]);
    (split; [reflexivity |]);
    simplify_map_eq; eauto 10.
Qed.

Lemma run_all_accepted_witness :
  exists s tr' r (evs : gmap string py_value),
    run (constant_llm band_only "Your band score is 6.0") 3 band_keys
        (graph_inputs "Academic Task 2" "" sample_essay []) []
    = (inr s, [] ++ tr')
    /\ call_count tr' = 5%nat
    /\ text_call_count tr' = 1%nat
    /\ sleeps tr' = []
    /\ final_report s = Some r
    /\ (exists k p,
           text_chain (constant_llm band_only "Your band score is 6.0") k p
           = inr r)
    /\ error s = error (graph_inputs "Academic Task 2" "" sample_essay [])
    /\ evaluations s = Some evs
    /\ is_Some (evs !! "coherence_cohesion")
    /\ is_Some (evs !! "lexical_resource")
    /\ is_Some (evs !! "grammatical_range")
    /\ (is_Some (evs !! "task_achievement")
        \/ is_Some (evs !! "task_response")).
Proof.
  apply (run_all_accepted
           (constant_llm band_only "Your band score is 6.0") 3 band_keys
           (graph_inputs "Academic Task 2" "" sample_essay []) []).
  - vm_compute. discriminate.
  - lia.
  - reflexivity.
  - reflexivity.
  - intros k p. exists band_only. split; [reflexivity |].
    intros f. reflexivity.
  - intros k p. eexists. reflexivity.
Defined.

(** ** Success after failed attempts *)

Lemma call_count_after_attempt tr p z :
  call_count ((tr ++ [LLMJsonCall p]) ++ [Sleep z]) = S (call_count tr).
Proof. rewrite !call_count_app. unfold call_count at 2 3. simpl. lia. Qed.

Lemma evaluator_loop_accepted_after llm MAX_RETRIES criterion keys state params
    (failed : list Z) (a : Z) (more : list Z) v :
  Forall (fun b => b <> MAX_RETRIES - 1) failed ->
  forall tr,
    (forall j, (j < length failed)%nat ->
               rejected keys (json_chain llm (call_count tr + j) params) = true) ->
    json_chain llm (call_count tr + length failed) params = inr v ->
    validate_json_output v keys = true ->
    evaluator_loop llm MAX_RETRIES criterion keys state params
                   (failed ++ a :: more) tr
    = (inr (Some (evaluations_update
                    (<[criterion := v]> (get_or (evaluations state) ∅)))),
       tr ++ retry_trace (LLMJsonCall params) (failed ++ [a])).
Proof.
  induction failed as [| b rest IH]; intros Hne tr Hrej Hout Hv.
  - simpl in Hout. rewrite Nat.add_0_r in Hout.
    change ([] ++ a :: more) with (a :: more).
    now rewrite evaluator_loop_step, Hout, Hv.
  - inversion Hne as [| ? ? Hb Hrest]; subst.
    change ((b :: rest) ++ a :: more) with (b :: (rest ++ a :: more)).
    change ((b :: rest) ++ [a]) with (b :: (rest ++ [a])).
    rewrite retry_trace_cons by (destruct rest; discriminate).
    rewrite evaluator_loop_step.
    pose proof (Hrej 0%nat ltac:(simpl; lia)) as H0.
    rewrite Nat.add_0_r in H0.
    apply Z.eqb_neq in Hb. rewrite Hb.
    assert (Hnext :
      evaluator_loop llm MAX_RETRIES criterion keys state params
                     (rest ++ a :: more)
                     ((tr ++ [LLMJsonCall params]) ++ [Sleep (2 ^ b)])
      = (inr (Some (evaluations_update
                      (<[criterion := v]> (get_or (evaluations state) ∅)))),
         ((tr ++ [LLMJsonCall params]) ++ [Sleep (2 ^ b)])
         ++ retry_trace (LLMJsonCall params) (rest ++ [a]))).
    { apply IH; [exact Hrest | | | exact Hv].
      - intros j Hj. rewrite call_count_after_attempt.
        replace (S (call_count tr) + j)%nat with (call_count tr + S j)%nat by lia.
        apply Hrej. simpl. lia.
      - rewrite call_count_after_attempt.
        replace (S (call_count tr) + length rest)%nat
          with (call_count tr + length (b :: rest))%nat by (simpl; lia).
        exact Hout. }
    rewrite Hnext. rewrite <- !app_assoc. simpl.
    destruct (json_chain llm (call_count tr) params) as [e | w];
      [reflexivity |].
    simpl in H0. apply negb_true_iff in H0. now rewrite H0.
Qed.

Lemma range_split (k n : Z) :
  0 <= k < n ->
  exists more, range n = range k ++ k :: more.
Proof.
  intros Hk. unfold range.
  replace (Z.to_nat n) with (Z.to_nat k + S (Z.to_nat (n - k - 1)))%nat by lia.
  rewrite seq_app, map_app. simpl. eexists. f_equal. f_equal. lia.
Qed.

(** X7: when the first [k] answers to an evaluator are rejected (an
    exception or a failed validation) and the next one passes, with
    [k < MAX_RETRIES], the node makes exactly [k + 1] calls, sleeps
    1, 2, ..., [2 ^ (k - 1)] seconds between them, does not sleep after
    the accepted answer, and returns that answer under its criterion. *)
Theorem evaluator_node_accepted_after_retries
    llm MAX_RETRIES criterion keys (state : GraphState) tr (k : nat) v :
  Z.of_nat k < MAX_RETRIES ->
  get_truthy (essay_text state) = true ->
  let params := evaluator_params criterion state
                  (sanitize_text (get_or (essay_text state) "")) in
  (forall j, (j < k)%nat ->
             rejected keys (json_chain llm (call_count tr + j) params) = true) ->
  json_chain llm (call_count tr + k) params = inr v ->
  validate_json_output v keys = true ->
  exists tr',
    evaluator_node llm MAX_RETRIES criterion keys state tr
    = (inr (Some (evaluations_update
                    (<[criterion := v]> (get_or (evaluations state) ∅)))),
       tr ++ tr')
    /\ tr' = retry_trace (LLMJsonCall params) (range (Z.of_nat k + 1))
    /\ call_count tr' = S k
    /\ sleeps tr' = map (fun i => 2 ^ i) (range (Z.of_nat k)).
Proof.
  intros Hk He params Hrej Hout Hv.
  destruct (range_split (Z.of_nat k) MAX_RETRIES ltac:(lia)) as [more Hrange].
  assert (Hlen : length (range (Z.of_nat k)) = k)
    by (rewrite length_range; lia).
  assert (Hlast : range (Z.of_nat k + 1) = range (Z.of_nat k) ++ [Z.of_nat k]).
  { rewrite (range_last (Z.of_nat k + 1)) by lia.
    now replace (Z.of_nat k + 1 - 1) with (Z.of_nat k) by lia. }
  exists (retry_trace (LLMJsonCall params) (range (Z.of_nat k + 1))).
  split; [| split; [reflexivity | split]].
  - unfold evaluator_node, try_except. rewrite He.
    change (negb true) with false. cbv iota. fold params.
    rewrite Hrange, Hlast.
    rewrite (evaluator_loop_accepted_after llm MAX_RETRIES criterion keys
               state params (range (Z.of_nat k)) (Z.of_nat k) more v);
      [reflexivity | | | | exact Hv].
    + unfold range. apply List.Forall_forall. intros a Ha.
      apply in_map_iff in Ha as (i & <- & Hi). apply in_seq in Hi. lia.
    + intros j Hj. apply Hrej. lia.
    + now rewrite Hlen.
  - rewrite call_count_retry_trace by reflexivity.
    rewrite length_range. lia.
  - rewrite Hlast. now apply sleeps_retry_trace.
Qed.

Lemma evaluator_node_accepted_after_retries_witness :
  let state := graph_inputs "Academic Task 2" "" sample_essay [] in
  let params := evaluator_params "task_response" state
                  (sanitize_text (get_or (essay_text state) "")) in
  exists tr',
    evaluator_node (flaky_llm 2 band_only) 3 "task_response" ["band_score"]
                   state []
    = (inr (Some (evaluations_update
                    (<["task_response" := band_only]>
                       (get_or (evaluations state) ∅)))),
       [] ++ tr')
    /\ tr' = retry_trace (LLMJsonCall params) (range (Z.of_nat 2 + 1))
    /\ call_count tr' = 3%nat
    /\ sleeps tr' = map (fun i => 2 ^ i) (range (Z.of_nat 2)).
Proof.
  apply (evaluator_node_accepted_after_retries
           (flaky_llm 2 band_only) 3 "task_response" ["band_score"]
           (graph_inputs "Academic Task 2" "" sample_essay []) [] 2 band_only).
  - lia.
  - reflexivity.
  - intros j Hj. destruct j as [| [| j]]; [reflexivity | reflexivity | lia].
  - reflexivity.
  - reflexivity.
Defined.

(** ** A synthesizer whose every attempt fails *)

Lemma synthesizer_loop_all_failing llm MAX_RETRIES params (earlier : list Z) :
  (forall n, exists e, text_chain llm n params = inl e) ->
  Forall (fun a => a <> MAX_RETRIES - 1) earlier ->
  forall tr, exists e,
    synthesizer_loop llm MAX_RETRIES params (earlier ++ [MAX_RETRIES - 1]) tr
    = (inl e,
       tr ++ retry_trace (LLMTextCall params) (earlier ++ [MAX_RETRIES - 1]))
    /\ exists n, text_chain llm n params = inl e.
Proof.
  intros Hfail. induction earlier as [| a rest IH]; intros Hne tr.
  - change ([] ++ [MAX_RETRIES - 1]) with [MAX_RETRIES - 1].
    rewrite synthesizer_loop_step, Z.eqb_refl.
    destruct (Hfail (call_count tr)) as [e He]. rewrite He.
    exists e. split; [reflexivity | eauto].
  - inversion Hne as [| ? ? Ha Hrest]; subst.
    change ((a :: rest) ++ [MAX_RETRIES - 1])
      with (a :: (rest ++ [MAX_RETRIES - 1])).
    rewrite synthesizer_loop_step.
    destruct (Hfail (call_count tr)) as [e0 He0]. rewrite He0.
    apply Z.eqb_neq in Ha. rewrite Ha.
    destruct (IH Hrest ((tr ++ [LLMTextCall params]) ++ [Sleep (2 ^ a)]))
      as (e & Hrun & Hn).
    exists e. split; [| exact Hn].
    rewrite Hrun. f_equal.
    rewrite retry_trace_cons by (destruct rest; discriminate).
    now rewrite <- !app_assoc.
Qed.

(** X8: the synthesizer retries like an evaluator.  With no error message
    on entry, some evaluation stored, [MAX_RETRIES >= 1] and a collaborator
    whose synthesis call always raises, it makes exactly [MAX_RETRIES]
    calls, sleeps [2 ^ i] seconds after attempt [i] for every attempt but
    the last, and returns the static fallback report together with a
    synthesis error that quotes the exception of a call. *)
Theorem synthesizer_node_always_failing llm MAX_RETRIES (state : GraphState) tr :
  1 <= MAX_RETRIES ->
  get_truthy (error state) = false ->
  get_or (evaluations state) ∅ <> ∅ ->
  (forall n p, exists e, text_chain llm n p = inl e) ->
  let params := synthesizer_params state (get_or (evaluations state) ∅) in
  exists e tr',
    synthesizer_node llm MAX_RETRIES state tr
    = (inr (Some (report_update fallback_report
                    (Some ("Synthesis error: " +:+ str_exn e)))),
       tr ++ tr')
    /\ (exists n, text_chain llm n params = inl e)
    /\ tr' = retry_trace (LLMTextCall params) (range MAX_RETRIES)
    /\ Z.of_nat (call_count tr') = MAX_RETRIES
    /\ sleeps tr' = map (fun i => 2 ^ i) (range (MAX_RETRIES - 1)).
Proof.
  intros Hmax Herr Hev Hfail params.
  destruct (synthesizer_loop_all_failing llm MAX_RETRIES params
              (range (MAX_RETRIES - 1)) (fun n => Hfail n params)
              (range_below _) tr) as (e & Hrun & Hn).
  rewrite <- range_last in Hrun by exact Hmax.
  exists e, (retry_trace (LLMTextCall params) (range MAX_RETRIES)).
  split; [| split; [exact Hn | split; [reflexivity | split]]].
  - unfold synthesizer_node, try_except. rewrite Herr.
    replace (dict_is_empty (get_or (evaluations state) ∅)) with false
      by (symmetry; now apply bool_decide_eq_false).
    fold params. now rewrite Hrun.
  - rewrite call_count_retry_trace by reflexivity.
    rewrite length_range. lia.
  - rewrite (range_last MAX_RETRIES) by exact Hmax.
    now apply sleeps_retry_trace.
Qed.

Lemma synthesizer_node_always_failing_witness :
  let state := merge (graph_inputs "Academic Task 2" "" sample_essay [])
                     (evaluations_update {[ "task_response" := band_only ]}) in
  let params := synthesizer_params state (get_or (evaluations state) ∅) in
  exists e tr',
    synthesizer_node failing_llm 3 state []
    = (inr (Some (report_update fallback_report
                    (Some ("Synthesis error: " +:+ str_exn e)))),
       [] ++ tr')
    /\ (exists n, text_chain failing_llm n params = inl e)
    /\ tr' = retry_trace (LLMTextCall params) (range 3)
    /\ Z.of_nat (call_count tr') = 3
    /\ sleeps tr' = map (fun i => 2 ^ i) (range (3 - 1)).
Proof.
  apply (synthesizer_node_always_failing failing_llm 3
           (merge (graph_inputs "Academic Task 2" "" sample_essay [])
                  (evaluations_update {[ "task_response" := band_only ]}))
           []).
  - lia.
  - reflexivity.
  - apply insert_non_empty.
  - intros n p. eexists. reflexivity.
Defined.

(** * Properties of the request validation (main.py) *)

(** ** Words survive the collapse, and the text does not grow *)

Lemma split_aux_word_app (w s : string) :
  all_chars non_space w = true ->
  forall cur, PyStr.split_aux cur (w +:+ s) = PyStr.split_aux (cur +:+ w) s.
Proof.
  induction w as [| x w IH]; intros Hw cur.
  - now rewrite string_app_nil_l, string_app_nil_r.
  - simpl in Hw. apply andb_true_iff in Hw as [Hx Hw].
    unfold non_space in Hx. apply negb_true_iff in Hx.
    rewrite string_app_cons. simpl PyStr.split_aux. rewrite Hx.
    rewrite IH by exact Hw. now rewrite string_app_assoc.
Qed.

Lemma split_aux_space (cur s : string) :
  cur <> "" ->
  PyStr.split_aux cur (String " " s) = cur :: PyStr.split_aux "" s.
Proof. destruct cur; [done | reflexivity]. Qed.

Lemma split_join_words (ws : list string) :
  Forall (fun w => is_word w = true) ws ->
  PyStr.split (PyStr.join " " ws) = ws.
Proof.
  unfold PyStr.split.
  induction 1 as [| w ws Hw Hws IH]; [reflexivity |].
  pose proof Hw as Hw'. unfold is_word in Hw'.
  apply andb_true_iff in Hw' as [Hne Hns].
  destruct ws as [| w' ws'].
  - simpl PyStr.join. rewrite <- (string_app_nil_r w) at 1.
    rewrite split_aux_word_app by exact Hns.
    rewrite string_app_nil_l. simpl. now destruct w.
  - rewrite join_cons by discriminate.
    rewrite split_aux_word_app by exact Hns.
    rewrite string_app_nil_l.
    change (" " +:+ PyStr.join " " (w' :: ws'))
      with (String " " (PyStr.join " " (w' :: ws'))).
    rewrite split_aux_space by (destruct w; [discriminate Hne | discriminate]).
    now rewrite IH.
Qed.

Lemma split_collapse (t : string) :
  PyStr.split (PyStr.join " " (PyStr.split t)) = PyStr.split t.
Proof. apply split_join_words, split_aux_words. reflexivity. Qed.

Lemma string_length_app (a b : string) :
  String.length (a +:+ b) = (String.length a + String.length b)%nat.
Proof.
  induction a as [| x a IH]; [reflexivity |].
  rewrite string_app_cons. simpl. now rewrite IH.
Qed.

Lemma length_join_split_aux (s : string) :
  forall cur,
    (String.length (PyStr.join " " (PyStr.split_aux cur s))
     <= String.length cur + String.length s)%nat.
Proof.
  induction s as [| c t IH]; intros cur.
  - simpl. destruct cur; simpl; lia.
  - simpl PyStr.split_aux. destruct (PyStr.is_space c).
    + destruct cur as [| x cur].
      * specialize (IH ""). simpl in *. lia.
      * specialize (IH "").
        destruct (PyStr.split_aux "" t) as [| w ws] eqn:E.
        -- simpl. lia.
        -- rewrite join_cons by discriminate.
           rewrite !string_length_app. simpl in *. lia.
    + specialize (IH (cur +:+ String c "")).
      rewrite string_length_app in IH. simpl in *. lia.
Qed.

Lemma len_collapse_le (t : string) :
  PyStr.len (PyStr.join " " (PyStr.split t)) <= PyStr.len t.
Proof.
  unfold PyStr.len, PyStr.split.
  pose proof (length_join_split_aux t ""). simpl in *. lia.
Qed.

(** ** Task types *)

Lemma in_valid_types (v : string) :
  in_list v valid_types = true ->
  v = "Academic Task 1" \/ v = "Academic Task 2"
  \/ v = "General Training Task 1" \/ v = "General Training Task 2".
Proof.
  unfold in_list, valid_types. simpl. rewrite !orb_true_iff.
  rewrite !String.eqb_eq. intuition discriminate.
Qed.

(** X9: a task type that [validate_task_type] accepts is returned
    unchanged and is never routed to the error node: the router sends it
    to the Task 1 evaluator when it contains "Task 1" and to the Task 2
    evaluator otherwise. *)
Theorem validated_task_type_is_routed (v v' : string) (state : GraphState) :
  validate_task_type v = inr v' ->
  task_type state = Some v' ->
  v' = v
  /\ should_evaluate_task_1_or_2 state <> handle_error
  /\ (should_evaluate_task_1_or_2 state
      = if PyStr.contains "Task 1" v then evaluate_task_achievement_t1
        else evaluate_task_response_t2).
Proof.
  unfold validate_task_type. intros Hv Hstate.
  destruct (in_list v valid_types) eqn:Hin; [| discriminate].
  simpl in Hv. injection Hv as <-.
  split; [reflexivity |].
  rewrite router_cases, Hstate. simpl get_or. cbv zeta.
  destruct (in_valid_types v Hin) as [-> | [-> | [-> | ->]]];
    vm_compute; split; (discriminate || reflexivity).
Qed.

Lemma validated_task_type_is_routed_witness :
  "General Training Task 1" = "General Training Task 1"
  /\ should_evaluate_task_1_or_2
       (graph_inputs "General Training Task 1" "" sample_essay [])
     <> handle_error
  /\ (should_evaluate_task_1_or_2
        (graph_inputs "General Training Task 1" "" sample_essay [])
      = if PyStr.contains "Task 1" "General Training Task 1"
        then evaluate_task_achievement_t1
        else evaluate_task_response_t2).
Proof.
  apply (validated_task_type_is_routed
           "General Training Task 1" "General Training Task 1"
           (graph_inputs "General Training Task 1" "" sample_essay []));
    reflexivity.
Defined.

(** ** Essay text *)

Lemma split_nonempty_truthy (v : string) :
  PyStr.split v <> [] -> PyStr.truthy v = true.
Proof. destruct v; [intros H; now destruct H | reflexivity]. Qed.

(** X10: an essay that [validate_essay_text] accepts is the input with
    its words joined by single spaces.  It is in collapsed form, has the
    same words as the input and at least fifty of them, is not empty, is
    left unchanged by a second validation, and, when the input has at
    most 15,000 characters, it is left unchanged by the sanitisation of
    the evaluators (no truncation). *)
Theorem validated_essay_text (t v : string) :
  validate_essay_text t = inr v ->
  v = PyStr.join " " (PyStr.split t)
  /\ collapsed v
  /\ PyStr.split v = PyStr.split t
  /\ 50 <= Z.of_nat (length (PyStr.split v))
  /\ PyStr.truthy v = true
  /\ validate_essay_text v = inr v
  /\ (PyStr.len t <= 15000 -> sanitize_text v = v).
Proof.
  intros H. unfold validate_essay_text in H. cbv zeta in H.
  rewrite split_collapse in H.
  destruct (Z.ltb_spec (Z.of_nat (length (PyStr.split t))) 50) as [| Hwords];
    [discriminate |].
  injection H as <-.
  pose proof (collapse_is_collapsed t) as Hc.
  pose proof (collapse_fixes_collapsed _ Hc) as Hfix.
  pose proof (split_collapse t) as Hsplit.
  split; [reflexivity |]. split; [exact Hc |].
  split; [exact Hsplit |].
  split; [now rewrite Hsplit |]. split; [| split].
  - apply split_nonempty_truthy. rewrite Hsplit.
    destruct (PyStr.split t); [simpl in Hwords; lia | discriminate].
  - unfold validate_essay_text. cbv zeta. rewrite Hfix, Hsplit.
    destruct (Z.ltb_spec (Z.of_nat (length (PyStr.split t))) 50);
      [lia | reflexivity].
  - intros Hlen. rewrite sanitize_text_short; rewrite Hfix; [reflexivity |].
    pose proof (len_collapse_le t). lia.
Qed.

Lemma validated_essay_text_witness :
  sixty_words = PyStr.join " " (PyStr.split sixty_words)
  /\ collapsed sixty_words
  /\ PyStr.split sixty_words = PyStr.split sixty_words
  /\ 50 <= Z.of_nat (length (PyStr.split sixty_words))
  /\ PyStr.truthy sixty_words = true
  /\ validate_essay_text sixty_words = inr sixty_words
  /\ (PyStr.len sixty_words <= 15000 -> sanitize_text sixty_words = sixty_words).
Proof.
  apply (validated_essay_text sixty_words sixty_words).
  vm_compute. reflexivity.
Defined.

(** ** Visual context of Task 1 requests *)

Lemma strip_truthy (s : string) :
  PyStr.truthy (strip s) = true -> PyStr.truthy s = true.
Proof. destruct s; [discriminate | reflexivity]. Qed.

Lemma truthy_app_r (a b : string) :
  PyStr.truthy b = true -> PyStr.truthy (a +:+ b) = true.
Proof. destruct a; [now rewrite string_app_nil_l | reflexivity]. Qed.

Lemma extract_image_description_truthy vision image description :
  extract_image_description vision image = inr description ->
  PyStr.truthy description = true.
Proof.
  unfold extract_image_description.
  destruct (vision image) as [e | content]; [discriminate |].
  destruct (PyStr.truthy (strip content)) eqn:E; simpl; [| discriminate].
  now intros [= <-].
Qed.

Lemma image_description_of_truthy vision image_data task_type :
  opt_truthy image_data = true ->
  PyStr.contains "Task 1" task_type = true ->
  PyStr.truthy (image_description_of vision image_data task_type) = true.
Proof.
  intros Hi Ht. unfold image_description_of. rewrite Hi, Ht. simpl.
  destruct (extract_image_description vision (get_or image_data ""))
    as [e | d] eqn:E; [reflexivity |].
  exact (extract_image_description_truthy vision _ d E).
Qed.

(** X11: for a valid Task 1 type and fields that [validate_image_data]
    accepts, the prompt text handed to the graph is never empty, whatever
    the vision model answers: the evaluators therefore always use the
    template with the visual data, and pass that prompt text as the
    visual data. *)
Theorem task_1_request_has_visual_data
    vision (task : string) (prompt : string) (image_data : option string)
    (essay essay' criterion : string) (previous : list PriorAttempt) :
  in_list task valid_types = true ->
  PyStr.contains "Task 1" task = true ->
  validate_image_data image_data (Some task) (Some prompt) = inr image_data ->
  let description := image_description_of vision image_data task in
  let enhanced := enhanced_prompt prompt description task in
  PyStr.truthy enhanced = true
  /\ ip_visual_data
       (evaluator_params criterion (graph_inputs task enhanced essay previous)
                         essay')
     = Some enhanced
  /\ ip_comparison_instruction
       (evaluator_params criterion (graph_inputs task enhanced essay previous)
                         essay')
     = None.
Proof.
  intros Hvalid Htask Himg description enhanced.
  assert (Htruthy : PyStr.truthy enhanced = true).
  { unfold enhanced, enhanced_prompt. rewrite Htask.
    destruct (opt_truthy image_data) eqn:Hi.
    - unfold description.
      rewrite image_description_of_truthy by assumption. simpl.
      destruct (PyStr.truthy (strip prompt)).
      + apply truthy_app_r. reflexivity.
      + reflexivity.
    - unfold validate_image_data in Himg. simpl in Himg.
      rewrite Htask, Hi in Himg. simpl in Himg.
      destruct (PyStr.truthy (strip prompt)) eqn:Hp; [| discriminate].
      unfold description, image_description_of. rewrite Hi. simpl.
      now apply strip_truthy. }
  split; [exact Htruthy |].
  assert (Hlower : PyStr.contains "task 1" (PyStr.lower task) = true).
  { destruct (in_valid_types task Hvalid) as [-> | [-> | [-> | ->]]];
      try reflexivity; vm_compute in Htask; discriminate. }
  unfold evaluator_params. simpl.
  rewrite Hlower, Htruthy. split; reflexivity.
Qed.

Lemma task_1_request_has_visual_data_witness :
  let vision := fun _ : string => inl (OtherException "quota") : exn + string in
  let description :=
    image_description_of vision (Some "iVBORw0KGgo") "Academic Task 1" in
  let enhanced := enhanced_prompt "  " description "Academic Task 1" in
  PyStr.truthy enhanced = true
  /\ ip_visual_data
       (evaluator_params "task_achievement"
          (graph_inputs "Academic Task 1" enhanced sixty_words []) sixty_words)
     = Some enhanced
  /\ ip_comparison_instruction
       (evaluator_params "task_achievement"
          (graph_inputs "Academic Task 1" enhanced sixty_words []) sixty_words)
     = None.
Proof.
  apply (task_1_request_has_visual_data
           (fun _ : string => inl (OtherException "quota") : exn + string)
           "Academic Task 1" "  " (Some "iVBORw0KGgo")
           sixty_words sixty_words "task_achievement" []);
    reflexivity.
Defined.

(** ** Previous attempts handed to the graph *)

Lemma excerpt_short (n : Z) (s : string) :
  PyStr.len s <= n -> excerpt n s = s.
Proof.
  intros H. unfold excerpt.
  destruct (Z.gtb_spec (PyStr.len s) n); [lia | reflexivity].
Qed.

Lemma excerpt_len (n : Z) (s : string) :
  0 <= n -> PyStr.len (excerpt n s) <= n + 3.
Proof.
  intros Hn. unfold excerpt.
  destruct (Z.gtb_spec (PyStr.len s) n) as [Hgt | Hle]; [| lia].
  unfold PyStr.len, PyStr.slice_to in *.
  rewrite string_length_app, length_take by lia. simpl. lia.
Qed.

Lemma previous_attempts_from_lookup (history : list HistoryEntry) :
  forall (start : Z) (i : nat) (h : HistoryEntry),
    history !! i = Some h ->
    exists a,
      previous_attempts_from start history !! i = Some a
      /\ attempt_number a = start + Z.of_nat i + 1
      /\ pa_word_count (attempt_fields a) = get_or (h_word_count h) 0
      /\ pa_timestamp (attempt_fields a) = get_or (h_timestamp h) ""
      /\ pa_essay_text (attempt_fields a)
         = excerpt 200 (get_or (h_essay_text h) "")
      /\ pa_evaluation_summary (attempt_fields a)
         = excerpt 500 (get_or (h_evaluation_report h) "").
Proof.
  induction history as [| h0 rest IH]; intros start i h Hi; [discriminate |].
  destruct i as [| i].
  - injection Hi as <-. eexists. split; [reflexivity |].
    simpl. repeat split. lia.
  - destruct (IH (start + 1) i h Hi) as (a & Ha & Hn & Hrest).
    exists a. split; [exact Ha |]. split; [lia | exact Hrest].
Qed.

Lemma length_previous_attempts_from (history : list HistoryEntry) (start : Z) :
  length (previous_attempts_from start history) = length history.
Proof.
  revert start. induction history as [| h rest IH]; intros start;
    [reflexivity |].
  simpl. now rewrite IH.
Qed.

(** X12: the previous attempts built from the stored history have one
    entry per stored evaluation, in the same order and numbered from 1.
    Each entry carries the stored word count and timestamp (0 and the
    empty string when missing), an essay excerpt of at most 203
    characters and a summary of at most 503 characters; an essay of at
    most 200 characters and a report of at most 500 characters are
    carried whole. *)
Theorem previous_attempts_are_bounded (history : list HistoryEntry) :
  length (previous_attempts_of history) = length history
  /\ forall (i : nat) (h : HistoryEntry),
       history !! i = Some h ->
       exists a,
         previous_attempts_of history !! i = Some a
         /\ attempt_number a = Z.of_nat i + 1
         /\ pa_word_count (attempt_fields a) = get_or (h_word_count h) 0
         /\ pa_timestamp (attempt_fields a) = get_or (h_timestamp h) ""
         /\ PyStr.len (pa_essay_text (attempt_fields a)) <= 203
         /\ PyStr.len (pa_evaluation_summary (attempt_fields a)) <= 503
         /\ (PyStr.len (get_or (h_essay_text h) "") <= 200 ->
             pa_essay_text (attempt_fields a) = get_or (h_essay_text h) "")
         /\ (PyStr.len (get_or (h_evaluation_report h) "") <= 500 ->
             pa_evaluation_summary (attempt_fields a)
             = get_or (h_evaluation_report h) "").
Proof.
  split; [apply length_previous_attempts_from |].
  intros i h Hi.
  destruct (previous_attempts_from_lookup history 0 i h Hi)
    as (a & Ha & Hn & Hw & Ht & He & Hs).
  exists a. split; [exact Ha |]. split; [lia |].
  split; [exact Hw |]. split; [exact Ht |].
  rewrite He, Hs.
  split; [apply (excerpt_len 200); lia |].
  split; [apply (excerpt_len 500); lia |].
  split; intros Hlen; now apply excerpt_short.
Qed.

Lemma previous_attempts_are_bounded_witness :
  let h := {| h_word_count := Some 61; h_timestamp := None;
              h_essay_text := Some sixty_words;
              h_evaluation_report := Some "Band 6.0" |} in
  exists a,
    previous_attempts_of [h; h] !! 1%nat = Some a
    /\ attempt_number a = Z.of_nat 1 + 1
    /\ pa_word_count (attempt_fields a) = get_or (h_word_count h) 0
    /\ pa_timestamp (attempt_fields a) = get_or (h_timestamp h) ""
    /\ PyStr.len (pa_essay_text (attempt_fields a)) <= 203
    /\ PyStr.len (pa_evaluation_summary (attempt_fields a)) <= 503
    /\ (PyStr.len (get_or (h_essay_text h) "") <= 200 ->
        pa_essay_text (attempt_fields a) = get_or (h_essay_text h) "")
    /\ (PyStr.len (get_or (h_evaluation_report h) "") <= 500 ->
        pa_evaluation_summary (attempt_fields a)
        = get_or (h_evaluation_report h) "").
Proof.
  intros h.
  apply (proj2 (previous_attempts_are_bounded [h; h]) 1%nat h).
  reflexivity.
Defined.

(** ** The response of the API *)

(** X13: the response built from the final state carries either a report
    or an error, never both and never neither.  A report is carried only
    when the final state has a non-empty final report and no error
    message, and it is that final report. *)
Theorem evaluation_response_report_or_error
    (final_state : option GraphState) (word_count : Z) (description : string) :
  let response := evaluation_response final_state word_count description in
  (er_report response = None <-> er_error response <> None)
  /\ forall report,
       er_report response = Some report ->
       report <> ""
       /\ exists state,
            final_state = Some state
            /\ final_report state = Some report
            /\ ~ is_set (error state).
Proof.
  unfold evaluation_response. cbv zeta.
  destruct final_state as [state |]; [| simpl; split; [split |]; try done].
  destruct (dict_truthy state); [| simpl; split; [split |]; try done].
  destruct (get_truthy (final_report state)) eqn:Hr;
    [| simpl; split; [split |]; try done].
  destruct (get_truthy (error state)) eqn:He;
    simpl; (split; [split |]); try done.
  - intros Hnone. rewrite Hnone in Hr. discriminate.
  - intros report Hrep. rewrite Hrep in Hr. simpl in Hr. split.
    + intros ->. discriminate.
    + exists state. unfold is_set. rewrite He. auto.
Qed.

(** * Properties of the client configuration (llm_config.py) *)

Lemma opt_truthy_nonempty (key : option string) :
  opt_truthy key = true -> get_or key "" <> "".
Proof. destruct key as [[| c s] |]; simpl; congruence. Qed.

Lemma keyed_client_inr cfg class key key_name base_url client :
  keyed_client cfg class key key_name base_url = inr client ->
  client = make_client cfg class (get_or key "") base_url
  /\ opt_truthy key = true.
Proof.
  unfold keyed_client. destruct (opt_truthy key); simpl; [| discriminate].
  now intros [= <-].
Qed.

Lemma or_else_nonempty (a : option string) (b : string) :
  b <> "" -> or_else a b <> "".
Proof.
  intros Hb. unfold or_else. destruct (opt_truthy a) eqn:E; [| exact Hb].
  now apply opt_truthy_nonempty.
Qed.

Lemma keyed_client_well_formed cfg class key key_name base_url client :
  keyed_client cfg class key key_name base_url = inr client ->
  (forall url, base_url = Some url -> url <> "") ->
  (class <> ChatOpenAI -> base_url = None) ->
  well_formed_client cfg client.
Proof.
  intros H Hurl Hclass.
  apply keyed_client_inr in H as [-> Hkey].
  repeat split; try assumption.
  now apply opt_truthy_nonempty.
Qed.

(** X14: a client returned by [get_llm] is never built with an empty API
    key or an empty base URL; it carries the model name, the timeout and
    the retry budget of the settings, and only clients of the
    OpenAI-compatible class get a base URL. *)
Theorem get_llm_client_well_formed (cfg : LLMSettings) (client : LLMClient) :
  get_llm cfg = inr client -> well_formed_client cfg client.
Proof.
  unfold get_llm. cbv zeta. intros H.
  repeat match type of H with
         | (if negb ?c then _ else _) = _ => destruct c eqn:?; simpl in H
         | (if ?c then _ else _) = _ => destruct c eqn:?
         end;
    try discriminate;
    try (eapply keyed_client_well_formed;
         [exact H | intros url [= <-]; discriminate || done | done]);
    injection H as <-;
    (repeat split; simpl; try done;
     try (intros url [= <-]);
     try (apply or_else_nonempty; discriminate);
     try (now apply opt_truthy_nonempty)).
Qed.

Lemma get_llm_client_well_formed_witness :
  exists client,
    get_llm sample_settings = inr client
    /\ well_formed_client sample_settings client
    /\ cl_base_url client = Some "http://localhost:11434/v1".
Proof.
  eexists. split; [reflexivity |]. split; [| reflexivity].
  apply (get_llm_client_well_formed sample_settings). reflexivity.
Defined.

Lemma keyed_client_with_key cfg class key key_name base_url :
  opt_truthy key = true ->
  keyed_client cfg class key key_name base_url
  = inr (make_client cfg class (get_or key "") base_url).
Proof. intros H. unfold keyed_client. now rewrite H. Qed.

(** X15: every provider name that the error message of [get_llm] lists
    as supported is accepted, in any letter case: with all keys and the
    custom base URL configured, [get_llm] returns a client for it. *)
Theorem listed_providers_are_supported (cfg : LLMSettings) :
  In (PyStr.lower (PROVIDER cfg)) names_in_message ->
  opt_truthy (GOOGLE_API_KEY cfg) = true ->
  opt_truthy (OPENAI_API_KEY cfg) = true ->
  opt_truthy (ANTHROPIC_API_KEY cfg) = true ->
  opt_truthy (DEEPSEEK_API_KEY cfg) = true ->
  opt_truthy (XAI_API_KEY cfg) = true ->
  opt_truthy (GROQ_API_KEY cfg) = true ->
  opt_truthy (TOGETHER_API_KEY cfg) = true ->
  opt_truthy (CUSTOM_API_KEY cfg) = true ->
  opt_truthy (CUSTOM_BASE_URL cfg) = true ->
  exists client, get_llm cfg = inr client.
Proof.
  intros Hname Hg Ho Ha Hd Hx Hq Ht Hc Hu.
  unfold get_llm. cbv zeta. unfold names_in_message in Hname. simpl in Hname.
  repeat destruct Hname as [Hname | Hname]; try contradiction;
    rewrite <- Hname; simpl;
    rewrite ?keyed_client_with_key by assumption;
    rewrite ?Hc, ?Hu; simpl; eauto.
Qed.

Lemma listed_providers_are_supported_witness :
  exists client,
    get_llm {| PROVIDER := "DeepSeek"; MODEL_NAME := "deepseek-chat";
               MAX_RETRIES := 3; TIMEOUT := 120;
               GOOGLE_API_KEY := Some "g"; OPENAI_API_KEY := Some "o";
               ANTHROPIC_API_KEY := Some "a"; DEEPSEEK_API_KEY := Some "d";
               XAI_API_KEY := Some "x"; GROQ_API_KEY := Some "q";
               TOGETHER_API_KEY := Some "t"; CUSTOM_API_KEY := Some "c";
               CUSTOM_BASE_URL := Some "http://localhost:8080/v1" |}
    = inr client.
Proof.
  apply listed_providers_are_supported; try reflexivity.
  vm_compute. tauto.
Defined.

(** * Properties of the question bank (data_manager.py) *)

(** X16: whatever the image data, the file [save_question] writes the
    image to is among the files [delete_question] removes for the same
    question, and so is the default file name [get_question] falls back
    to. *)
Theorem saved_image_is_deleted (question_id image_data : string) :
  In (saved_image_filename question_id image_data)
     (deleted_image_filenames question_id)
  /\ In (default_image_filename question_id)
        (deleted_image_filenames question_id).
Proof.
  unfold saved_image_filename, deleted_image_filenames, get_image_extension,
    default_image_filename.
  split.
  - repeat match goal with
           | |- context [if ?c then _ else _] => destruct c
           end; simpl; tauto.
  - simpl. tauto.
Qed.

(** * A run in which every evaluator call fails *)

Lemma text_call_count_retry_trace p (attempts : list Z) :
  text_call_count (retry_trace (LLMJsonCall p) attempts) = 0%nat.
Proof.
  induction attempts as [| a rest IH]; [reflexivity |].
  destruct rest as [| b rest]; [reflexivity |].
  rewrite retry_trace_cons by discriminate.
  change (LLMJsonCall p :: Sleep (2 ^ a) :: retry_trace (LLMJsonCall p) (b :: rest))
    with ([LLMJsonCall p; Sleep (2 ^ a)] ++ retry_trace (LLMJsonCall p) (b :: rest)).
  rewrite text_call_count_app, IH. reflexivity.
Qed.

Lemma stage_all_failing llm MAX_RETRIES keys n criterion file
    (state : GraphState) tr :
  stage_of n = Some (criterion, file) ->
  1 <= MAX_RETRIES ->
  get_truthy (essay_text state) = true ->
  (forall k p, exists e, json_chain llm k p = inl e) ->
  exists e tr1,
    node_function llm MAX_RETRIES keys n state tr
    = (inr (Some (error_update ("Failed during " +:+ criterion
                                +:+ " evaluation: " +:+ str_exn e))),
       tr ++ tr1)
    /\ (exists k p, json_chain llm k p = inl e)
    /\ Z.of_nat (call_count tr1) = MAX_RETRIES
    /\ text_call_count tr1 = 0%nat.
Proof.
  intros Hstage Hmax He Hfail.
  rewrite (node_function_stage _ _ _ _ _ _ Hstage).
  destruct (evaluator_node_all_rejected llm MAX_RETRIES criterion (keys file)
              state tr Hmax He) as (k & tr1 & Hrun & Htr & Hcalls & _).
  { intros k. destruct (Hfail k (evaluator_params criterion state
                                   (sanitize_text (get_or (essay_text state) ""))))
      as [e ->]. reflexivity. }
  destruct (Hfail k (evaluator_params criterion state
                       (sanitize_text (get_or (essay_text state) ""))))
    as [e Hk].
  rewrite Hk in Hrun. simpl failure_exn in Hrun.
  exists e, tr1. split; [exact Hrun |]. split; [eauto |].
  split; [exact Hcalls |]. rewrite Htr. apply text_call_count_retry_trace.
Qed.

Ltac failing_stage Hmax He Hfail :=
  rewrite run_from_step;
  match goal with
  | |- context [node_function ?llm ?m ?keys ?n ?state ?tr] =>
      let e := fresh "e" in
      let tr1 := fresh "tr" in
      let Hrun := fresh "Hrun" in
      let Hsrc := fresh "Hsrc" in
      let Hcalls := fresh "Hcalls" in
      let Htext := fresh "Htext" in
      destruct (stage_all_failing llm m keys n _ _ state tr eq_refl
                  Hmax He Hfail) as (e & tr1 & Hrun & Hsrc & Hcalls & Htext);
      rewrite Hrun; clear Hrun; cbn [next_node]; cbv zeta
  end.

(** X17: in a run routed to an evaluator, with a non-empty essay and
    [MAX_RETRIES >= 1], when every evaluator call raises, each of the
    four evaluators uses up its attempts ([4 * MAX_RETRIES] calls in
    all), no synthesis call is made, the evaluations are left as they
    were, and the run ends with the generic error report and the error
    of the last evaluator (grammatical range). *)
Theorem run_all_failing llm MAX_RETRIES keys (inputs : GraphState) tr :
  should_evaluate_task_1_or_2 inputs <> handle_error ->
  1 <= MAX_RETRIES ->
  get_truthy (essay_text inputs) = true ->
  (forall k p, exists e, json_chain llm k p = inl e) ->
  exists s tr' e,
    run llm MAX_RETRIES keys inputs tr = (inr s, tr ++ tr')
    /\ final_report s = Some generic_error_report
    /\ error s = Some ("Failed during grammatical_range evaluation: "
                       +:+ str_exn e)
    /\ (exists k p, json_chain llm k p = inl e)
    /\ evaluations s = evaluations inputs
    /\ Z.of_nat (call_count tr') = 4 * MAX_RETRIES
    /\ text_call_count tr' = 0%nat.
Proof.
  intros Hroute Hmax He Hfail. unfold run, recursion_limit.
  destruct (router_not_error_cases inputs Hroute) as [-> | ->];
    do 4 (failing_stage Hmax He Hfail);
    rewrite run_from_step; cbn [node_function next_node];
    rewrite synthesizer_node_short_circuit by reflexivity;
    match goal with
    | |- context [(inr _, (((tr ++ ?a) ++ ?b) ++ ?c) ++ ?d)] =>
        eexists _, (a ++ b ++ c ++ d), _
    end;
    (split; [rewrite <- !app_assoc; reflexivity |]);
    (split; [reflexivity |]);
    (split; [reflexivity |]);
    (split; [eassumption |]);
    (split; [simpl; now destruct (evaluations inputs) |]);
    (split; [rewrite !call_count_app; lia |]);
    rewrite !text_call_count_app; lia.
Qed.

Lemma run_all_failing_witness :
  exists s tr' e,
    run failing_llm 3 band_keys
        (graph_inputs "Academic Task 2" "" sample_essay []) []
    = (inr s, [] ++ tr')
    /\ final_report s = Some generic_error_report
    /\ error s = Some ("Failed during grammatical_range evaluation: "
                       +:+ str_exn e)
    /\ (exists k p, json_chain failing_llm k p = inl e)
    /\ evaluations s
       = evaluations (graph_inputs "Academic Task 2" "" sample_essay [])
    /\ Z.of_nat (call_count tr') = 4 * 3
    /\ text_call_count tr' = 0%nat.
Proof.
  apply (run_all_failing failing_llm 3 band_keys
           (graph_inputs "Academic Task 2" "" sample_essay []) []).
  - vm_compute. discriminate.
  - lia.
  - reflexivity.
  - intros k p. eexists. reflexivity.
Defined.

(** * The shape of a sanitised text *)

Lemma no_leading_ws_take (n : nat) (s : string) :
  no_leading_ws s = true -> no_leading_ws (PyStr.take n s) = true.
Proof. destruct n, s; simpl; auto. Qed.

Lemma no_consecutive_ws_take (n : nat) :
  forall s, no_consecutive_ws s = true ->
            no_consecutive_ws (PyStr.take n s) = true.
Proof.
  induction n as [| n IH]; intros s Hs; [reflexivity |].
  destruct s as [| c t]; [reflexivity |].
  rewrite no_consecutive_ws_cons in Hs.
  apply andb_true_iff in Hs as [Hadj Hs].
  change (PyStr.take (S n) (String c t)) with (String c (PyStr.take n t)).
  rewrite no_consecutive_ws_cons, (IH t Hs), andb_true_r.
  destruct (PyStr.is_space c); [| reflexivity].
  simpl in Hadj. apply negb_true_iff, negb_false_iff in Hadj.
  now rewrite (no_leading_ws_take n t Hadj).
Qed.

Lemma plain_spaces_take (n : nat) :
  forall s, plain_spaces s = true -> plain_spaces (PyStr.take n s) = true.
Proof.
  induction n as [| n IH]; intros s Hs; [reflexivity |].
  destruct s as [| c t]; [reflexivity |].
  rewrite plain_spaces_cons in Hs. apply andb_true_iff in Hs as [Hc Hs].
  change (PyStr.take (S n) (String c t)) with (String c (PyStr.take n t)).
  now rewrite plain_spaces_cons, Hc, (IH t Hs).
Qed.

Lemma length_take_le (n : nat) :
  forall s, (String.length (PyStr.take n s) <= n)%nat.
Proof.
  induction n as [| n IH]; intros s; [simpl; lia |].
  destruct s as [| c t]; simpl; [lia |]. specialize (IH t). lia.
Qed.

Lemma no_leading_ws_app (x m : string) :
  no_leading_ws x = true -> no_leading_ws m = true ->
  no_leading_ws (x +:+ m) = true.
Proof. destruct x; auto. Qed.

Lemma no_consecutive_ws_app (x m : string) :
  no_consecutive_ws x = true ->
  no_leading_ws m = true -> no_consecutive_ws m = true ->
  no_consecutive_ws (x +:+ m) = true.
Proof.
  intros Hx Hlm Hm. induction x as [| c x IH]; [exact Hm |].
  rewrite no_consecutive_ws_cons in Hx.
  apply andb_true_iff in Hx as [Hadj Hx].
  rewrite string_app_cons, no_consecutive_ws_cons, (IH Hx), andb_true_r.
  destruct (PyStr.is_space c); [| reflexivity].
  simpl in Hadj. apply negb_true_iff, negb_false_iff in Hadj.
  simpl. now rewrite no_leading_ws_app.
Qed.

(** X18: the result of [sanitize_text] is always in collapsed form (no
    leading, trailing or adjacent whitespace, single spaces only), also
    when it was truncated, and never has more than 15,015 characters.
    When the collapsed text has at most 15,000 characters the result has
    the words of the input and is not longer than the input. *)
Theorem sanitize_text_shape (t : string) :
  collapsed (sanitize_text t)
  /\ PyStr.len (sanitize_text t) <= 15015
  /\ (PyStr.len (PyStr.join " " (PyStr.split t)) <= 15000 ->
      PyStr.split (sanitize_text t) = PyStr.split t
      /\ PyStr.len (sanitize_text t) <= PyStr.len t).
Proof.
  pose proof (collapse_is_collapsed t) as (Hl & Hc & Ht & Hp).
  rewrite sanitize_text_unfold. cbv zeta.
  destruct (Z.gtb_spec (PyStr.len (PyStr.join " " (PyStr.split t))) 15000)
    as [Hlong | Hshort].
  - split; [| split; [| lia]].
    + unfold PyStr.slice_to. repeat split.
      * apply no_leading_ws_app; [now apply no_leading_ws_take | reflexivity].
      * apply no_consecutive_ws_app;
          [now apply no_consecutive_ws_take | reflexivity | reflexivity].
      * now rewrite no_trailing_ws_word_app by discriminate.
      * unfold plain_spaces in *. rewrite all_chars_app.
        fold (plain_spaces (PyStr.take (Z.to_nat 15000)
                              (PyStr.join " " (PyStr.split t)))).
        now rewrite plain_spaces_take.
    + unfold PyStr.len, PyStr.slice_to. rewrite string_length_app.
      pose proof (length_take_le (Z.to_nat 15000)
                    (PyStr.join " " (PyStr.split t))).
      simpl String.length at 2. lia.
  - split; [repeat split; assumption |]. split; [lia |].
    intros _. split; [apply split_collapse | apply len_collapse_le].
Qed.

(** * Rubrics and the answers they admit *)

Lemma py_all_in_dict (keys : list string) (d : gmap string py_value) :
  py_all_in keys (PyDict d) = inr (forallb (has_key d) keys).
Proof.
  induction keys as [| k rest IH]; [reflexivity |].
  simpl. destruct (has_key d k); [exact IH | reflexivity].
Qed.

Lemma list_to_set_keys (m : gmap string py_value) :
  (list_to_set (map fst (map_to_list m)) : gset string) = dom m.
Proof. symmetry. apply leibniz_equiv, dom_alt. Qed.

(** X19: when the expected output keys of an evaluator can be built from
    a rubric file, the file holds a dictionary with the three required
    sections and its output format is a dictionary.  The evaluator then
    accepts exactly the dictionaries that have every key of the output
    format; in particular an answer with the keys of the output format
    itself is accepted. *)
Theorem rubric_decides_accepted_answers
    (read_json : string -> exn + py_value) (filename : string)
    (keys : list string) :
  expected_output_keys_of read_json filename = inr keys ->
  exists rubric output_format : gmap string py_value,
    read_json filename = inr (PyDict rubric)
    /\ is_Some (rubric !! "category")
    /\ is_Some (rubric !! "criteria_to_evaluate")
    /\ rubric !! "output_format" = Some (PyDict output_format)
    /\ (forall result,
           validate_json_output result keys = true
           <-> exists d, result = PyDict d /\ dom output_format ⊆ dom d)
    /\ validate_json_output (PyDict output_format) keys = true.
Proof.
  unfold expected_output_keys_of, load_rubric. intros H.
  destruct (read_json filename) as [e | rubric]; [discriminate |].
  destruct (py_all_in required_keys rubric) as [e | [|]] eqn:Hall;
    try discriminate.
  destruct rubric as [| | | | | | d]; try discriminate.
  rewrite py_all_in_dict in Hall. injection Hall as Hall.
  unfold required_keys in Hall. simpl in Hall.
  apply andb_true_iff in Hall as [Hcat Hall].
  apply andb_true_iff in Hall as [Hcrit _].
  destruct (d !! "output_format") as [[| | | | | | fmt] |] eqn:Hfmt;
    try discriminate.
  injection H as <-.
  assert (Hiff : forall result,
             validate_json_output result (map fst (map_to_list fmt)) = true
             <-> exists d0, result = PyDict d0 /\ dom fmt ⊆ dom d0).
  { intros result. rewrite validate_json_output_spec.
    now rewrite list_to_set_keys. }
  exists d, fmt. split; [reflexivity |].
  split; [now apply elem_of_dom, has_key_dom |].
  split; [now apply elem_of_dom, has_key_dom |].
  split; [exact Hfmt |]. split; [exact Hiff |].
  apply Hiff. eauto.
Qed.

Lemma rubric_decides_accepted_answers_witness :
  exists keys (rubric output_format : gmap string py_value),
    expected_output_keys_of (fun _ => inr sample_rubric)
                            "4_lexical_resource.json" = inr keys
    /\ sample_rubric = PyDict rubric
    /\ rubric !! "output_format" = Some (PyDict output_format)
    /\ validate_json_output (PyDict output_format) keys = true.
Proof.
  assert (Hkeys : { keys | expected_output_keys_of
                             (fun _ => inr sample_rubric)
                             "4_lexical_resource.json" = inr keys }).
  { eexists. vm_compute. reflexivity. }
  destruct Hkeys as [keys Hkeys]. exists keys.
  destruct (rubric_decides_accepted_answers
              (fun _ => inr sample_rubric) "4_lexical_resource.json" keys Hkeys)
    as (rubric & fmt & Hread & _ & _ & Hfmt & _ & Hacc).
  exists rubric, fmt. split; [exact Hkeys |].
  split; [| split; [exact Hfmt | exact Hacc]].
  apply (f_equal (fun x : exn + py_value =>
                    match x with inr v => v | inl _ => PyNone end)) in Hread.
  exact Hread.
Defined.

(** * The word count placeholder *)

Example prepare_rubric_ex :
  prepare_rubric_with_word_count
    "The essay has {word_count} words ({word_count} >= 250)." 287
  = "The essay has 287 words (287 >= 250).".
Proof. reflexivity. Qed.

Lemma string_of_uint_decimal (d : Decimal.uint) :
  all_chars is_decimal_char (NilEmpty.string_of_uint d) = true.
Proof. induction d; simpl; auto. Qed.

Lemma str_int_decimal (n : Z) :
  exists d rest,
    str_int n = String d rest
    /\ is_decimal_char d = true
    /\ all_chars is_decimal_char rest = true.
Proof.
  unfold str_int, NilZero.string_of_int.
  destruct (Z.to_int n) as [u | u].
  - pose proof (string_of_uint_decimal u) as H.
    unfold NilZero.string_of_uint.
    destruct u; simpl in *; eexists _, _; (split; [reflexivity |]);
      split; try reflexivity; exact H.
  - pose proof (string_of_uint_decimal u) as H.
    eexists _, _. split; [reflexivity |]. split; [reflexivity |].
    unfold NilZero.string_of_uint. destruct u; [reflexivity | exact H ..].
Qed.

Lemma prefix_cons (a b : ascii) (p s : string) :
  String.prefix (String a p) (String b s)
  = if Ascii.eqb a b then String.prefix p s else false.
Proof.
  simpl. destruct (ascii_dec a b) as [-> | Hne].
  - now rewrite Ascii.eqb_refl.
  - apply Ascii.eqb_neq in Hne. now rewrite Hne.
Qed.

(** A prefix of the replaced text that avoids the first character of the
    replacement is a prefix of the original text. *)
Lemma prefix_replace_aux (old : string) (d : ascii) (new' : string) (p : string) :
  all_chars (fun a => negb (Ascii.eqb a d)) p = true ->
  forall t,
    String.prefix p (replace_aux old (String d new') 0 t) = true ->
    String.prefix p t = true.
Proof.
  induction p as [| a p IH]; intros Hp t; [now destruct t |].
  simpl in Hp. apply andb_true_iff in Hp as [Ha Hp].
  apply negb_true_iff in Ha.
  destruct t as [| c t]; [simpl; discriminate |].
  cbn [replace_aux].
  destruct (String.prefix old (String c t)).
  - rewrite string_app_cons, prefix_cons, Ha. discriminate.
  - rewrite !prefix_cons. destruct (Ascii.eqb a c); [| discriminate].
    now apply IH.
Qed.

Lemma contains_cons (old : string) (c : ascii) (s : string) :
  PyStr.contains old (String c s)
  = if String.prefix old (String c s) then true else PyStr.contains old s.
Proof. reflexivity. Qed.

Lemma contains_app_decimal (q new w : string) :
  all_chars is_decimal_char new = true ->
  PyStr.contains (String "{" q) (new +:+ w)
  = PyStr.contains (String "{" q) w.
Proof.
  induction new as [| c new IH]; intros Hnew; [reflexivity |].
  simpl in Hnew. apply andb_true_iff in Hnew as [Hc Hnew].
  rewrite string_app_cons, contains_cons, prefix_cons.
  destruct (Ascii.eqb_spec "{" c) as [<- | _]; [discriminate Hc |].
  now apply IH.
Qed.

Lemma decimal_not_in_placeholder (d : ascii) :
  is_decimal_char d = true ->
  all_chars (fun a => negb (Ascii.eqb a d)) "word_count}" = true.
Proof.
  intros Hd. destruct d as [b0 b1 b2 b3 b4 b5 b6 b7].
  destruct b0, b1, b2, b3, b4, b5, b6, b7;
    first [reflexivity | vm_compute in Hd; discriminate Hd].
Qed.

Lemma replace_aux_no_placeholder (n : Z) (s : string) :
  forall skip,
    PyStr.contains word_count_placeholder
      (replace_aux word_count_placeholder (str_int n) skip s) = false.
Proof.
  destruct (str_int_decimal n) as (d & rest & Hn & Hd & Hrest).
  rewrite Hn. unfold word_count_placeholder.
  induction s as [| c t IH]; intros skip; [reflexivity |].
  cbn [replace_aux]. destruct skip as [| k]; [| apply IH].
  destruct (String.prefix "{word_count}" (String c t)) eqn:Hpre.
  - rewrite contains_app_decimal by (simpl; now rewrite Hd, Hrest).
    apply IH.
  - rewrite contains_cons, IH.
    destruct (String.prefix "{word_count}"
                (String c (replace_aux "{word_count}" (String d rest) 0 t)))
      eqn:Hout; [| reflexivity].
    rewrite prefix_cons in Hout, Hpre.
    destruct (Ascii.eqb "{" c); [| discriminate].
    apply (prefix_replace_aux _ d rest "word_count}"
             (decimal_not_in_placeholder d Hd)) in Hout.
    congruence.
Qed.

(** X20: whatever the serialised rubric and the word count, the text
    returned by [prepare_rubric_with_word_count] contains no
    [{word_count}] placeholder any more; a rubric without placeholder is
    returned as it is. *)
Theorem prepared_rubric_has_no_placeholder (rubric_str : string) (n : Z) :
  PyStr.contains word_count_placeholder
    (prepare_rubric_with_word_count rubric_str n) = false
  /\ (PyStr.contains word_count_placeholder rubric_str = false ->
      prepare_rubric_with_word_count rubric_str n = rubric_str).
Proof.
  unfold prepare_rubric_with_word_count.
  destruct (PyStr.contains word_count_placeholder rubric_str) eqn:E.
  - split; [| discriminate].
    change (str_replace word_count_placeholder (str_int n) rubric_str)
      with (replace_aux word_count_placeholder (str_int n) 0 rubric_str).
    apply replace_aux_no_placeholder.
  - split; [exact E | reflexivity].
Qed.

(** * The startup check and the default provider *)

Lemma lower_char_idempotent (c : ascii) :
  PyStr.lower_char (PyStr.lower_char c) = PyStr.lower_char c.
Proof.
  destruct c as [b0 b1 b2 b3 b4 b5 b6 b7].
  destruct b0, b1, b2, b3, b4, b5, b6, b7; reflexivity.
Qed.

Lemma lower_idempotent (s : string) :
  PyStr.lower (PyStr.lower s) = PyStr.lower s.
Proof.
  induction s as [| c s IH]; [reflexivity |].
  simpl. now rewrite lower_char_idempotent, IH.
Qed.

(** X21: when the startup check of the environment passes and the
    provider is Google (the default when [LLM_PROVIDER] is not set, or
    "google" / "gemini" in any letter case), [get_llm] returns a Gemini
    client built with the key of the environment and the configured or
    default model name. *)
Theorem checked_environment_gives_google_client
    (getenv : string -> option string) (max_retries timeout : Z) :
  validate_environment getenv = inr tt ->
  in_list (PyStr.lower (get_or (getenv "LLM_PROVIDER") "google"))
          ["google"; "gemini"] = true ->
  exists key,
    getenv "GOOGLE_API_KEY" = Some key /\ key <> ""
    /\ get_llm (settings_from_env getenv max_retries timeout)
       = inr {| cl_class := ChatGoogleGenerativeAI;
                cl_model := get_or (getenv "MODEL_NAME") "gemini-2.5-flash";
                cl_timeout := timeout; cl_max_retries := max_retries;
                cl_api_key := key; cl_base_url := None |}.
Proof.
  intros Hcheck Hprov.
  unfold validate_environment in Hcheck. cbv zeta in Hcheck.
  simpl List.filter in Hcheck.
  destruct (opt_truthy (getenv "GOOGLE_API_KEY")) eqn:Hkey;
    [| discriminate Hcheck].
  clear Hcheck.
  destruct (getenv "GOOGLE_API_KEY") as [key |] eqn:Hget; [| discriminate].
  exists key. split; [reflexivity |]. split.
  - intros ->. discriminate.
  - unfold get_llm. cbv zeta.
    cbn [PROVIDER settings_from_env]. rewrite lower_idempotent, Hprov.
    unfold keyed_client. cbn [GOOGLE_API_KEY settings_from_env].
    rewrite Hget, Hkey. reflexivity.
Qed.

Lemma checked_environment_gives_google_client_witness :
  exists key,
    google_only_env "GOOGLE_API_KEY" = Some key /\ key <> ""
    /\ get_llm (settings_from_env google_only_env 3 120)
       = inr {| cl_class := ChatGoogleGenerativeAI;
                cl_model := get_or (google_only_env "MODEL_NAME")
                                   "gemini-2.5-flash";
                cl_timeout := 120; cl_max_retries := 3;
                cl_api_key := key; cl_base_url := None |}.
Proof.
  apply (checked_environment_gives_google_client google_only_env 3 120);
    reflexivity.
Defined.

(** * Instances of the properties with inner premises *)

Lemma evaluation_response_report_or_error_witness :
  let state := merge (graph_inputs "Academic Task 2" "" sixty_words [])
                     (report_update "Your band score is 6.0" None) in
  "Your band score is 6.0" <> ""
  /\ exists state',
       Some state = Some state'
       /\ final_report state' = Some "Your band score is 6.0"
       /\ ~ is_set (error state').
Proof.
  intros state.
  apply (proj2 (evaluation_response_report_or_error (Some state) 60 "")).
  reflexivity.
Defined.

Lemma sanitize_text_shape_witness :
  PyStr.split (sanitize_text sample_essay) = PyStr.split sample_essay
  /\ PyStr.len (sanitize_text sample_essay) <= PyStr.len sample_essay.
Proof.
  apply (proj2 (proj2 (sanitize_text_shape sample_essay))).
  vm_compute. discriminate.
Defined.

Lemma prepared_rubric_has_no_placeholder_witness :
  prepare_rubric_with_word_count "No placeholder here." 287
  = "No placeholder here.".
Proof.
  apply (proj2 (prepared_rubric_has_no_placeholder "No placeholder here." 287)).
  reflexivity.
Defined.

Lemma graph_paths_are_acyclic_witness :
  (handle_error ∉ path_from recursion_limit evaluate_task_response_t2)
  /\ (synthesizer ∈ path_from recursion_limit evaluate_task_response_t2).
Proof.
  apply (proj2 (proj2 (proj2 (graph_paths_are_acyclic evaluate_task_response_t2)))).
  discriminate.
Defined.

Lemma evaluator_node_update_shape_witness :
  exists result tr',
    evaluator_node (flaky_llm 1 band_only) 3 "task_response" ["band_score"]
                   (graph_inputs "Academic Task 2" "" sample_essay []) []
    = (inr result, tr')
    /\ text_call_count tr' = text_call_count []
    /\ result = Some (evaluations_update {[ "task_response" := band_only ]}).
Proof.
  destruct (evaluator_node_update_shape (flaky_llm 1 band_only) 3
              "task_response" ["band_score"]
              (graph_inputs "Academic Task 2" "" sample_essay []) [])
    as (result & tr' & Hrun & Hcount & _).
  exists result, tr'. split; [exact Hrun |]. split; [exact Hcount |].
  vm_compute in Hrun. now injection Hrun as <- _.
Defined.
